(** * Lead extraction (src/app.py, [scrape_justdial])

    A shallow embedding of the scraper of [src/app.py].  The parsed page is a
    tree of tags and text nodes; the BeautifulSoup queries the scraper uses
    ([find_all], [find], [get_text(strip=True)], attribute matching by string
    and by compiled pattern) are functions over that tree.  The two external
    calls that may fail ([requests.get] and the [BeautifulSoup] constructor)
    are variables of a section, and the diagnostics sent to the UI are
    recorded in a log, so that "what was done" can be read off the result.
    The code of the page around the scraper is embedded as well: the button
    that starts an extraction and the session state it writes, the metrics
    over the stored frame, and the name of the exported file.

    Text is modelled as [string] over 8-bit characters, read as the code
    points 0 to 255.  The character classes of Python ([str.isspace] and
    [str.strip], the pattern classes [\d], [\s] and [\S], [str.lower]) are
    written out for that range, on which they are exact: its whitespace is
    TAB to CR, 0x1C to 0x1F, the space, NEL (0x85) and the no-break space
    (0xA0); its decimal digits are 0 to 9; and [str.lower] works there
    character by character.  Text with code points above 255 is outside the
    model. *)

From Stdlib Require Import Bool Arith ZArith List Ascii String Lia.
Import ListNotations.

Local Open Scope string_scope.
Local Open Scope list_scope.

(** ** Python strings *)

Module Py.

(** [str.isspace] on one character, which is also what [str.strip] removes
    and what [\s] matches: TAB, LF, VT, FF, CR, the separators 0x1C..0x1F,
    the space, NEL (0x85) and the no-break space (0xA0). *)
Definition is_space (c : ascii) : bool :=
  let n := nat_of_ascii c in
  ((9 <=? n) && (n <=? 13) || (28 <=? n) && (n <=? 31) || (n =? 32)
   || (n =? 133) || (n =? 160))%nat.

(** Pattern class [\d]: below 256 the decimal digits are 0 to 9. *)
Definition is_digit (c : ascii) : bool :=
  let n := nat_of_ascii c in ((48 <=? n) && (n <=? 57))%nat.

(** [str.lower] on one character: the letters A to Z, and the accented
    capitals 0xC0 to 0xDE but for the multiplication sign 0xD7, move up
    by 32. *)
Definition lower_char (c : ascii) : ascii :=
  let n := nat_of_ascii c in
  if ((65 <=? n) && (n <=? 90)
      || (192 <=? n) && (n <=? 222) && negb (n =? 215))%nat
  then ascii_of_nat (n + 32) else c.

Fixpoint lower (s : string) : string :=
  match s with
  | EmptyString => EmptyString
  | String c s' => String (lower_char c) (lower s')
  end.

(** [s.replace(old, new)] where [old] and [new] are single characters. *)
Fixpoint replace_char (old new : ascii) (s : string) : string :=
  match s with
  | EmptyString => EmptyString
  | String c s' =>
      String (if Ascii.eqb c old then new else c) (replace_char old new s')
  end.

(** [s.replace(old, '')] where [old] is a single character. *)
Fixpoint remove_char (old : ascii) (s : string) : string :=
  match s with
  | EmptyString => EmptyString
  | String c s' =>
      if Ascii.eqb c old then remove_char old s'
      else String c (remove_char old s')
  end.

(** [s[:n]] for a non-negative literal [n]. *)
Fixpoint take (n : nat) (s : string) : string :=
  match n, s with
  | S n', String c s' => String c (take n' s')
  | _, _ => EmptyString
  end.

Fixpoint lstrip (s : string) : string :=
  match s with
  | EmptyString => EmptyString
  | String c s' => if is_space c then lstrip s' else s
  end.

Fixpoint rstrip (s : string) : string :=
  match s with
  | EmptyString => EmptyString
  | String c s' =>
      match rstrip s' with
      | EmptyString => if is_space c then EmptyString else String c EmptyString
      | r => String c r
      end
  end.

(** [s.strip()] *)
Definition strip (s : string) : string := rstrip (lstrip s).

(** [needle in s] *)
Fixpoint contains (needle s : string) : bool :=
  prefix needle s ||
  match s with
  | EmptyString => false
  | String _ s' => contains needle s'
  end.

(** [sep.join(l)] *)
Fixpoint join (sep : string) (l : list string) : string :=
  match l with
  | [] => EmptyString
  | [x] => x
  | x :: rest => x ++ sep ++ join sep rest
  end.

(** [l[:k]] for a Python integer [k]: a negative [k] counts from the end. *)
Definition slice_to {A : Type} (l : list A) (k : Z) : list A :=
  if (0 <=? k)%Z then firstn (Z.to_nat k) l
  else firstn (Z.to_nat (Z.of_nat (List.length l) + k)) l.

(** The longest prefix of [s] whose characters all satisfy [p]. *)
Fixpoint take_while (p : ascii -> bool) (s : string) : string :=
  match s with
  | EmptyString => EmptyString
  | String c s' => if p c then String c (take_while p s') else EmptyString
  end.

(** [re.search('[cls]{n,}', s)]: the pattern is tried at each start position
    from the left, and the repetition is greedy. *)
Fixpoint search_run (p : ascii -> bool) (n : nat) (s : string) : option string :=
  let run := take_while p s in
  if (n <=? String.length run)%nat then Some run
  else match s with
       | EmptyString => None
       | String _ s' => search_run p n s'
       end.

(** [re.sub(r'\s+', ' ', s)]; [in_run] tells that the previous character
    belonged to the run of whitespace being replaced. *)
Fixpoint collapse_ws (in_run : bool) (s : string) : string :=
  match s with
  | EmptyString => EmptyString
  | String c s' =>
      if is_space c
      then (if in_run then collapse_ws true s'
            else String " " (collapse_ws true s'))
      else String c (collapse_ws false s')
  end.

(** [\S+] tokens of [s], as [re.findall(r'\S+', s)] returns them. *)
Fixpoint tokens_aux (cur : string) (s : string) : list string :=
  match s with
  | EmptyString => if String.eqb cur "" then [] else [cur]
  | String c s' =>
      if is_space c
      then (if String.eqb cur "" then tokens_aux "" s'
            else cur :: tokens_aux "" s')
      else tokens_aux (cur ++ String c "") s'
  end.

Definition tokens (s : string) : list string := tokens_aux "" s.

End Py.

(** ** The parsed page and the BeautifulSoup queries *)

Set Warnings "-register-all".

Module Bs.

(** A parsed document: text nodes ([NavigableString]) and tags with their
    attributes and children, in document order.  The attributes stand for
    the tag's dictionary: the first binding of a key is its value. *)
Inductive node : Type :=
| Text (s : string)
| Tag (name : string) (attrs : list (string * string)) (contents : list node).

(** [tag.descendants]: every node below [n], in document order. *)
Fixpoint descendants (n : node) : list node :=
  match n with
  | Text _ => []
  | Tag _ _ cs => flat_map (fun c => c :: descendants c) cs
  end.

(** [tag.get(key)] *)
Fixpoint get (attrs : list (string * string)) (key : string) : option string :=
  match attrs with
  | [] => None
  | (k, v) :: rest => if String.eqb k key then Some v else get rest key
  end.

(** What an attribute is matched against: a string (equality), a compiled
    pattern (its [search]), or [True] (the attribute is present). *)
Inductive criterion : Type :=
| Exact (s : string)
| Pattern (search : string -> bool)
| Present.

(** Matching of one string value. *)
Definition matches (v : string) (c : criterion) : bool :=
  match c with
  | Exact s => String.eqb v s
  | Pattern search => search v
  | Present => true
  end.

(** Matching of the [class] attribute, which holds a list of tokens: one of
    the tokens matches, or the tokens joined by a space do.  An absent
    attribute matches nothing. *)
Definition matches_class (attrs : list (string * string)) (c : criterion) : bool :=
  match get attrs "class" with
  | None => false
  | Some v =>
      match c with
      | Present => true
      | _ => let toks := Py.tokens v in
             existsb (fun t => matches t c) toks || matches (Py.join " " toks) c
      end
  end.

(** Matching of a single-valued attribute such as [href]. *)
Definition matches_attr (attrs : list (string * string)) (key : string)
  (c : criterion) : bool :=
  match get attrs key with
  | None => false
  | Some v => matches v c
  end.

(** The search criteria of one [find_all] call: a tag name and optional
    criteria on [class] and [href]. *)
Record strainer : Type := mkStrainer {
  s_name : string;
  s_class : option criterion;
  s_href : option criterion
}.

Definition by_name (name : string) : strainer := mkStrainer name None None.
Definition by_class (name : string) (c : criterion) : strainer :=
  mkStrainer name (Some c) None.
Definition by_href (name : string) (c : criterion) : strainer :=
  mkStrainer name None (Some c).

Definition search_tag (st : strainer) (n : node) : bool :=
  match n with
  | Text _ => false
  | Tag name attrs _ =>
      String.eqb name (s_name st)
      && match s_class st with
         | None => true
         | Some c => matches_class attrs c
         end
      && match s_href st with
         | None => true
         | Some c => matches_attr attrs "href" c
         end
  end.

(** [tag.find_all(...)]: the matching descendants, in document order. *)
Definition find_all (st : strainer) (n : node) : list node :=
  filter (search_tag st) (descendants n).

(** [tag.find(...)]: the first match, or [None]. *)
Definition find (st : strainer) (n : node) : option node :=
  hd_error (find_all st n).

(** [a or b] on the results of two [find] calls (a tag is always true). *)
Definition or_else (a b : option node) : option node :=
  match a with
  | Some _ => a
  | None => b
  end.

(** [tag.get_text(strip=True)]: the strings below the tag, each stripped,
    the empty ones dropped, concatenated. *)
Definition stripped_strings (n : node) : list string :=
  flat_map (fun d => match d with
                     | Text s => let s' := Py.strip s in
                                 if String.eqb s' "" then [] else [s']
                     | Tag _ _ _ => []
                     end) (descendants n).

Definition get_text_strip (n : node) : string :=
  Py.join "" (stripped_strings n).

(** [tag.get('href')] on a node. *)
Definition href (n : node) : option string :=
  match n with
  | Text _ => None
  | Tag _ attrs _ => get attrs "href"
  end.

End Bs.

Import Bs.

(** ** Records, diagnostics and effects *)

(** One row of the result: the dictionary built on lines 137-145, with its
    seven keys as fields. *)
Record LeadRecord : Type := mkLead {
  business_name : string;      (* 'Business Name' *)
  email_id : string;           (* 'Email ID' *)
  phone_number : string;       (* 'Phone Number' *)
  address : string;            (* 'Location / Address' *)
  business_category : string;  (* 'Business Category' *)
  website_url : string;        (* 'Website URL' *)
  social_profiles : string     (* 'Social Media Profiles' *)
}.

(** [pd.DataFrame(businesses)]: the rows in order; [pd.DataFrame()] is []. *)
Definition DataFrame : Type := list LeadRecord.

(** The sentinel of an unresolved field. *)
Definition NA : string := "N/A".

(** The reply of [requests.get]. *)
Record response : Type := mkResponse {
  status_code : Z;
  content : string
}.

(** What the scraper does to the outside, in the order it does it: the two
    external calls and the messages it sends to the UI. *)
Inductive event : Type :=
| Info_searching (keyword location : string)   (* st.info, line 48 *)
| Get (url : string)                           (* requests.get, line 51 *)
| Error_status (status : Z)                    (* st.error, line 54 *)
| Parse (markup : string)                      (* BeautifulSoup(...), line 57 *)
| Warning_primary_empty                        (* st.warning, line 63 *)
| Warning_another_method                       (* st.warning, line 67 *)
| Info_found (n : nat)                         (* st.info, line 71 *)
| Text_extracted (count : Z) (name : string)   (* st.text, line 149 *)
| Error_no_valid_data                          (* st.error, line 160 *)
| Error_scraping (e : string).                 (* st.error, line 164 *)

(** A call either returns or raises an [Exception] carrying a message. *)
Inductive outcome (A : Type) : Type :=
| Returned (a : A)
| Raised (e : string).

Arguments Returned {A} a.
Arguments Raised {A} e.

(** Computations that log events and may raise. *)
Definition M (A : Type) : Type := (list event * outcome A)%type.

Definition ret {A : Type} (a : A) : M A := ([], Returned a).

Definition bind {A B : Type} (m : M A) (f : A -> M B) : M B :=
  match m with
  | (l, Returned a) => let (l', r) := f a in (l ++ l', r)
  | (l, Raised e) => (l, Raised e)
  end.

Definition emit (ev : event) : M unit := ([ev], Returned tt).

(** An external call: logged, then its outcome. *)
Definition call {A : Type} (ev : event) (o : outcome A) : M A := ([ev], o).

(** [try: m except Exception as e: h e] *)
Definition try_except {A : Type} (m : M A) (h : string -> M A) : M A :=
  match m with
  | (l, Raised e) => let (l', r) := h e in (l ++ l', r)
  | (l, Returned a) => (l, Returned a)
  end.

Declare Scope scrape_scope.
Delimit Scope scrape_scope with scrape.
Notation "x <- m ;; k" := (bind m (fun x => k))
  (at level 61, m at next level, right associativity) : scrape_scope.
Notation "m ;; k" := (bind m (fun _ => k))
  (at level 61, right associativity) : scrape_scope.
Local Open Scope scrape_scope.

(** ** The scraper *)

(** The pattern of line 93, [[\d\s\-\+\(\)]]: one character of a phone run. *)
Definition phone_char (c : ascii) : bool :=
  Py.is_digit c || Py.is_space c
  || Ascii.eqb c "-" || Ascii.eqb c "+" || Ascii.eqb c "(" || Ascii.eqb c ")".

(** The pattern of line 69, [.*listing.*|.*store.*|.*business.*], searched
    in a class value (which holds no line break). *)
Definition loose_class (v : string) : bool :=
  Py.contains "listing" v || Py.contains "store" v || Py.contains "business" v.

(** Lines 59-69: the listings, by the first selector that finds any. *)
Definition primary_listings (soup : node) : list node :=
  find_all (by_class "li" (Exact "cntanr")) soup.

Definition store_details_listings (soup : node) : list node :=
  find_all (by_class "div" (Exact "store-details")) soup.

Definition loose_listings (soup : node) : list node :=
  find_all (by_class "div" (Pattern loose_class)) soup.

Definition is_empty {A : Type} (l : list A) : bool :=
  match l with [] => true | _ => false end.

Definition select_listings (soup : node) : M (list node) :=
  let listings := primary_listings soup in
  listings <- (if is_empty listings
               then emit Warning_primary_empty ;;
                    ret (store_details_listings soup)
               else ret listings) ;;
  if is_empty listings
  then emit Warning_another_method ;;
       ret (loose_listings soup)
  else ret listings.

(** Lines 77-80: the name from the primary markers. *)
Definition marker_name (listing : node) : string :=
  match or_else (find (by_class "span" (Exact "jcn")) listing)
                (find (by_class "a" (Exact "jcn")) listing) with
  | Some name_tag => get_text_strip name_tag
  | None => NA
  end.

(** Lines 82-86: the headings, tried when the name is still the sentinel. *)
Definition extract_name (listing : node) : string :=
  let name := marker_name listing in
  if String.eqb name NA
  then match or_else (find (by_name "h2") listing)
                     (find (by_name "h3") listing) with
       | Some name_tag => get_text_strip name_tag
       | None => name
       end
  else name.

(** Lines 89-95 *)
Definition extract_phone (listing : node) : string :=
  match or_else (find (by_class "p" (Exact "contact-info")) listing)
                (find (by_class "span" (Exact "mobilesv")) listing) with
  | Some phone_tag =>
      match Py.search_run phone_char 10 (get_text_strip phone_tag) with
      | Some phone_match => Py.strip phone_match
      | None => NA
      end
  | None => NA
  end.

(** Lines 98-103 *)
Definition extract_address (listing : node) : string :=
  match or_else (find (by_class "p" (Exact "address")) listing)
                (find (by_class "span" (Exact "mrehover")) listing) with
  | Some addr_tag => Py.collapse_ws false (get_text_strip addr_tag)
  | None => NA
  end.

(** Lines 106-111 *)
Definition extract_website (listing : node) : string :=
  match find (by_href "a" (Pattern (Py.contains "http"))) listing with
  | Some web_tag =>
      match href web_tag with
      | Some h =>
          if negb (String.eqb h "") && negb (Py.contains "justdial" h)
          then h else NA
      | None => NA
      end
  | None => NA
  end.

(** Lines 117-120 *)
Definition make_email (name : string) : string :=
  if negb (String.eqb name NA)
  then let email_name :=
         Py.take 15 (Py.remove_char "-" (Py.remove_char " " (Py.lower name))) in
       ("info@" ++ email_name ++ ".com")%string
  else NA.

(** Lines 123-133 *)
Definition social_links (listing : node) : list string :=
  flat_map (fun link =>
              let h := match href link with Some h => h | None => "" end in
              if Py.contains "facebook.com" h then [("Facebook: " ++ h)%string]
              else if Py.contains "instagram.com" h then [("Instagram: " ++ h)%string]
              else [])
           (find_all (by_href "a" Present) listing).

Definition extract_social (listing : node) : string :=
  let links := social_links listing in
  if is_empty links then NA else Py.join " | " (firstn 2 links).

(** Lines 76-147, the body of the loop for one listing: the record it
    appends, or [None] when it appends nothing.  No operation of the body
    raises on a parsed tree, so the handler of line 154 has nothing to
    catch. *)
Definition extract_listing (keyword : string) (listing : node)
  : option LeadRecord :=
  let name := extract_name listing in
  let phone := extract_phone listing in
  let address := extract_address listing in
  let website := extract_website listing in
  let category := keyword in
  let email := make_email name in
  let social := extract_social listing in
  if negb (String.eqb name NA) && (2 <? String.length name)%nat
  then Some (mkLead name email phone address category website social)
  else None.

(** Lines 73-155: the loop over the listings kept by the slice, with its
    counter and the list it appends to. *)
Fixpoint for_listings (keyword : string) (max_results : Z)
  (listings : list node) (count : Z) (businesses : list LeadRecord)
  : M (list LeadRecord) :=
  match listings with
  | [] => ret businesses
  | listing :: rest =>
      match extract_listing keyword listing with
      | Some business =>
          let businesses := businesses ++ [business] in
          let count := (count + 1)%Z in
          emit (Text_extracted count (business_name business)) ;;
          if (count >=? max_results)%Z
          then ret businesses
          else for_listings keyword max_results rest count businesses
      | None => for_listings keyword max_results rest count businesses
      end
  end.

(** Lines 71-161: what is done with the listings the cascade settled on. *)
Definition process_listings (keyword : string) (max_results : Z)
  (listings : list node) : M DataFrame :=
  emit (Info_found (List.length listings)) ;;
  businesses <- for_listings keyword max_results
                  (Py.slice_to listings max_results) 0%Z [] ;;
  if is_empty businesses
  then emit Error_no_valid_data ;;
       ret []
  else ret businesses.

Section Scraper.

(** The network and the parser, as the scraper sees them: [requests_get url]
    stands for the request of line 51 with its fixed headers and timeout,
    [BeautifulSoup markup] for the parse of line 57 with [html.parser].
    Either may raise. *)
Variable requests_get : string -> outcome response.
Variable BeautifulSoup : string -> outcome node.

(** Line 46 *)
Definition search_url (keyword location : string) : string :=
  let keyword_formatted := Py.replace_char " " "-" (Py.lower keyword) in
  let location_formatted := Py.replace_char " " "-" (Py.lower location) in
  ("https://www.justdial.com/" ++ location_formatted ++ "/"
     ++ keyword_formatted)%string.

(** Lines 27-165 *)
Definition scrape_justdial (keyword location : string) (max_results : Z)
  : M DataFrame :=
  try_except
    (let url := search_url keyword location in
     emit (Info_searching keyword location) ;;
     response <- call (Get url) (requests_get url) ;;
     if negb (status_code response =? 200)%Z
     then emit (Error_status (status_code response)) ;;
          ret []
     else
       soup <- call (Parse (content response))
                    (BeautifulSoup (content response)) ;;
       listings <- select_listings soup ;;
       process_listings keyword max_results listings)
    (fun e => emit (Error_scraping e) ;; ret []).

End Scraper.

(** ** Reference definitions used by the statements *)

(** All characters of [s] satisfy [p]. *)
Fixpoint str_all (p : ascii -> bool) (s : string) : bool :=
  match s with
  | EmptyString => true
  | String c s' => p c && str_all p s'
  end.

(** The records the loop body yields for a list of listings, in order. *)
Definition accepted (keyword : string) (listings : list node) : list LeadRecord :=
  flat_map (fun listing => match extract_listing keyword listing with
                           | Some business => [business]
                           | None => []
                           end) listings.

(** The acceptance test of line 136 on the name a listing resolves to. *)
Definition acceptable (listing : node) : bool :=
  let name := extract_name listing in
  negb (String.eqb name NA) && (2 <? String.length name)%nat.

(** The listings the cascade of lines 59-69 settles on. *)
Definition chosen_listings (soup : node) : list node :=
  if negb (is_empty (primary_listings soup)) then primary_listings soup
  else if negb (is_empty (store_details_listings soup))
       then store_details_listings soup
       else loose_listings soup.

(** The targets of the links ([a] tags carrying an [href]) of a fragment, in
    document order. *)
Definition link_targets (listing : node) : list string :=
  flat_map (fun d => match d with
                     | Tag name attrs _ =>
                         if String.eqb name "a"
                         then match get attrs "href" with
                              | Some h => [h]
                              | None => []
                              end
                         else []
                     | Text _ => []
                     end) (descendants listing).

(** The name with its spaces and hyphens removed, as the specification words
    the first step of the e-mail derivation. *)
Fixpoint remove_spaces_and_hyphens (s : string) : string :=
  match s with
  | EmptyString => EmptyString
  | String c s' =>
      if Ascii.eqb c " " || Ascii.eqb c "-"
      then remove_spaces_and_hyphens s'
      else String c (remove_spaces_and_hyphens s')
  end.

(** The e-mail address as the specification derives it from a name:
    ["info@" + first15(lower(removeSpacesAndHyphens(name))) + ".com"]. *)
Definition spec_email (name : string) : string :=
  ("info@" ++ Py.take 15 (Py.lower (remove_spaces_and_hyphens name)) ++ ".com")%string.

(** The website as the specification words it: the target of the first link
    that is an absolute HTTP(S) URL and does not mention the host. *)
Definition is_absolute_http (h : string) : bool :=
  prefix "http://" h || prefix "https://" h.

Definition spec_website (listing : node) : string :=
  match filter (fun h => is_absolute_http h && negb (Py.contains "justdial" h))
               (link_targets listing) with
  | h :: _ => h
  | [] => NA
  end.

(** The characters the specification allows in a phone number,
    [[0-9 +()-]]. *)
Definition spec_phone_char (c : ascii) : bool :=
  Py.is_digit c || Ascii.eqb c " " || Ascii.eqb c "+"
  || Ascii.eqb c "(" || Ascii.eqb c ")" || Ascii.eqb c "-".

(** ** Fixtures *)

Module Fixture.

Definition span_jcn (s : string) : node := Tag "span" [("class", "jcn")] [Text s].
Definition link (h s : string) : node := Tag "a" [("href", h)] [Text s].
Definition heading (s : string) : node := Tag "h2" [] [Text s].
Definition contact (s : string) : node :=
  Tag "p" [("class", "contact-info")] [Text s].
Definition li_cntanr (cs : list node) : node := Tag "li" [("class", "cntanr")] cs.
Definition div_store (cs : list node) : node :=
  Tag "div" [("class", "store-details")] cs.
Definition document (cs : list node) : node := Tag "[document]" [] cs.

(** A server that answers every request with [status] and a fixed body, and
    a parser that reads that body as [soup]. *)
Definition serve (status : Z) : string -> outcome response :=
  fun _ => Returned (mkResponse status "<html>").
Definition parse_as (soup : node) : string -> outcome node :=
  fun _ => Returned soup.

(** A listing with a name and nothing else, and one without any name. *)
Definition named (s : string) : node := li_cntanr [span_jcn s].
Definition nameless : node := li_cntanr [Tag "p" [] [Text "sponsored"]].

(** Three listings; the store-details selector would find two others. *)
Definition page_three : node :=
  document [Tag "ul" [] [named "Cafe Blue-Moon Express Kochi";
                         named "Tea House"; named "Bakers Inn"];
            div_store [heading "Other One"]; div_store [heading "Other Two"]].

(** A skipped listing followed by three acceptable ones. *)
Definition page_skip_first : node :=
  document [nameless; named "Tea House"; named "Bakers Inn"; named "Curry Leaf"].

(** First link to the host itself, second link to the business's site. *)
Definition two_links : node :=
  li_cntanr [span_jcn "Tea House";
             link "https://www.justdial.com/kochi/tea-house" "more";
             link "https://teahouse.example" "website"].

(** A link through a redirect of the directory: not an absolute URL, but
    its target mentions [http]. *)
Definition redirect_link : node :=
  li_cntanr [span_jcn "Tea House";
             link "/out?to=http://teahouse.example" "website"].

(** A seven-digit number, a tab between its groups, padded with spaces. *)
Definition padded_phone : node :=
  li_cntanr [span_jcn "Tea House";
             contact ("Tel:    2345" ++ String "009" "678   ext")].

(** The name marker is there but holds two characters; a heading holds a
    full name. *)
Definition short_marker : node :=
  li_cntanr [span_jcn "TH"; heading "Tea House"].

(** A page holding one listing. *)
Definition page_of (listing : node) : node :=
  document [Tag "ul" [] [listing]].

(** A server whose connection fails, and a parser that gives up. *)
Definition unreachable : string -> outcome response :=
  fun _ => Raised "Connection refused".
Definition unparsable : string -> outcome node :=
  fun _ => Raised "could not parse".

End Fixture.

(** ** The page around the scraper *)

(** What the page shows during one run in which the button was pressed: the
    scraper's own events, and the messages of lines 230-242. *)
Inductive ui_message : Type :=
| From_scraper (e : event)
| Error_missing_input            (* st.error, line 230 *)
| Success_extracted (n : nat)    (* st.success, line 239 *)
| Error_no_data_found            (* st.error, line 241 *)
| Info_tip.                      (* st.info, line 242 *)

(** Lines 228-242: the button was pressed with [keyword] and [location]
    typed in and the slider on [num_results]; [extracted_data] is
    [st.session_state.extracted_data] before the run ([None] at the start
    of a session, lines 21-22), the value returned is what it holds after. *)
Definition start_extraction
  (requests_get : string -> outcome response)
  (BeautifulSoup : string -> outcome node)
  (keyword location : string) (num_results : Z)
  (extracted_data : option DataFrame)
  : list ui_message * outcome (option DataFrame) :=
  if (keyword =? "")%string || (location =? "")%string
  then ([Error_missing_input], Returned extracted_data)
  else
    match scrape_justdial requests_get BeautifulSoup keyword location num_results with
    | (log, Returned df) =>
        if negb (is_empty df)
        then (map From_scraper log ++ [Success_extracted (List.length df)],
              Returned (Some df))
        else (map From_scraper log ++ [Error_no_data_found; Info_tip],
              Returned extracted_data)
    | (log, Raised e) => (map From_scraper log, Raised e)
    end.

(** One press of the button, with the network and the parser as they are at
    that moment. *)
Record click : Type := mkClick {
  network : string -> outcome response;
  parser : string -> outcome node;
  typed_keyword : string;
  typed_location : string;
  slider : Z
}.

(** The session state after a sequence of presses. *)
Fixpoint session (clicks : list click) (extracted_data : option DataFrame)
  : outcome (option DataFrame) :=
  match clicks with
  | [] => Returned extracted_data
  | c :: rest =>
      match snd (start_extraction (network c) (parser c) (typed_keyword c)
                   (typed_location c) (slider c) extracted_data) with
      | Returned extracted_data' => session rest extracted_data'
      | Raised e => Raised e
      end
  end.

(** Lines 258-267: the four metrics shown above the table. *)
Definition total_leads (df : DataFrame) : nat := List.length df.

Definition with_email (df : DataFrame) : nat :=
  List.length (filter (fun r => negb (email_id r =? NA)%string) df).

Definition with_phone (df : DataFrame) : nat :=
  List.length (filter (fun r => negb (phone_number r =? NA)%string) df).

Definition with_website (df : DataFrame) : nat :=
  List.length (filter (fun r => negb (website_url r =? NA)%string) df).

(** Lines 299-301: the name of the exported file; [timestamp] is what
    [datetime.now().strftime("%Y%m%d_%H%M%S")] returns. *)
Definition export_filename (keyword location timestamp : string) : string :=
  let clean_keyword :=
    if negb (keyword =? "")%string
    then Py.lower (Py.replace_char " " "_" keyword)
    else "leads" in
  ("real_leads_" ++ clean_keyword ++ "_"
     ++ Py.replace_char " " "_" (Py.lower location) ++ "_"
     ++ timestamp ++ ".csv")%string.

(** ** Further reference definitions *)

(** An upper-case ASCII letter. *)
Definition is_upper (c : ascii) : bool :=
  let n := nat_of_ascii c in ((65 <=? n) && (n <=? 90))%nat.

(** Neither a space nor an upper-case letter. *)
Definition url_char (c : ascii) : bool :=
  negb (Ascii.eqb c " ") && negb (is_upper c).

(** Neither a space, nor a hyphen, nor an upper-case letter. *)
Definition slug_char (c : ascii) : bool :=
  negb (Ascii.eqb c " ") && negb (Ascii.eqb c "-") && negb (is_upper c).

(** The only whitespace of [s] is the space, and no two spaces are adjacent;
    [after_space] tells that the character before [s] was a space. *)
Fixpoint single_spaced (after_space : bool) (s : string) : bool :=
  match s with
  | EmptyString => true
  | String c s' =>
      if Py.is_space c
      then Ascii.eqb c " " && negb after_space && single_spaced true s'
      else single_spaced false s'
  end.

Definition starts_with_space (s : string) : bool :=
  match s with
  | EmptyString => false
  | String c _ => Py.is_space c
  end.

Fixpoint ends_with_space (s : string) : bool :=
  match s with
  | EmptyString => false
  | String c EmptyString => Py.is_space c
  | String _ s' => ends_with_space s'
  end.

(** No whitespace at either end. *)
Definition trimmed (s : string) : bool :=
  negb (starts_with_space s) && negb (ends_with_space s).

(** The entry a link target gives to the social profiles, if any. *)
Definition social_label (h : string) : list string :=
  if Py.contains "facebook.com" h then [("Facebook: " ++ h)%string]
  else if Py.contains "instagram.com" h then [("Instagram: " ++ h)%string]
  else [].

(** The progress lines of line 149 for [rows], the counter being at [count]
    before the first of them. *)
Fixpoint progress (count : Z) (rows : list LeadRecord) : list event :=
  match rows with
  | [] => []
  | r :: rest =>
      Text_extracted (count + 1) (business_name r) :: progress (count + 1) rest
  end.

(** [run] is where the pattern of line 93 matches in [text], between [pre]
    and [post]: at least 10 characters of the class, as many as there are
    from the start of the run (the repetition is greedy), and no start
    position inside [pre] begins 10 characters of the class (the search
    takes the leftmost match). *)
Definition is_phone_match (text pre run post : string) : Prop :=
  text = (pre ++ run ++ post)%string /\
  (10 <= String.length run)%nat /\
  str_all phone_char run = true /\
  Py.take_while phone_char post = "" /\
  forall pre1 pre2 : string,
    pre = (pre1 ++ pre2)%string -> pre2 <> "" ->
    (String.length (Py.take_while phone_char (pre2 ++ run ++ post)) < 10)%nat.

(** The pattern of line 93 matches nowhere in [text]: no position begins 10
    characters of the class. *)
Definition no_phone_match (text : string) : Prop :=
  forall pre rest : string,
    text = (pre ++ rest)%string ->
    (String.length (Py.take_while phone_char rest) < 10)%nat.

(** ** Further fixtures *)

Module Scenario.

Definition div_class (cls : string) (cs : list node) : node :=
  Tag "div" [("class", cls)] cs.

(** No [li.cntanr]; two [div.store-details], one of them without a name. *)
Definition page_store_details : node :=
  Fixture.document
    [Fixture.div_store [Fixture.heading "Tea House"];
     Fixture.div_store [Tag "p" [] [Text "advertisement"]]].

(** Neither [li.cntanr] nor [div.store-details]; a [div] whose class
    mentions [listing]. *)
Definition page_loose : node :=
  Fixture.document
    [div_class "result-listing wide" [Fixture.heading "Bakers Inn"];
     div_class "footer" [Fixture.heading "About us"]].

(** A page without anything any selector finds. *)
Definition page_blank : node :=
  Fixture.document [Tag "p" [] [Text "No results"]].

(** A listing with every field. *)
Definition full_listing : node :=
  Fixture.li_cntanr
    [Fixture.span_jcn " Cafe Blue-Moon ";
     Fixture.contact "+91 98470 12345";
     Tag "p" [("class", "address")] [Text "  12,   MG Road"; Tag "br" [] [];
                                     Text " Kochi  "];
     Fixture.link "https://www.instagram.com/bluemoon" "ig";
     Fixture.link "https://www.facebook.com/bluemoon" "fb";
     Fixture.link "https://www.facebook.com/bluemoon.kochi" "fb2"].

Definition page_full : node := Fixture.page_of full_listing.

(** A contact line with a number far shorter than 10 characters. *)
Definition opening_days : node :=
  Fixture.li_cntanr [Fixture.span_jcn "Tea House";
                     Fixture.contact "Open 7 days"].

(** A contact line whose number is padded with no-break spaces. *)
Definition no_break_phone : node :=
  Fixture.li_cntanr
    [Fixture.span_jcn "Tea House";
     Fixture.contact ("Tel 98470" ++ String "160" "12345")].

(** A name with an accented capital. *)
Definition accented_name : node :=
  Fixture.li_cntanr
    [Fixture.span_jcn ("CAF" ++ String "201" " BLUE")].

(** Three presses: a missing location, a successful extraction, a fetch
    that fails. *)
Definition three_clicks : list click :=
  [mkClick (Fixture.serve 200) (Fixture.parse_as Fixture.page_three) "tea" "" 10;
   mkClick (Fixture.serve 200) (Fixture.parse_as Fixture.page_three) "tea" "kochi" 10;
   mkClick Fixture.unreachable (Fixture.parse_as Fixture.page_three) "tea" "kochi" 10].

End Scenario.

(** ** Facts about the string operations *)

Lemma str_all_take_while (p : ascii -> bool) (s : string) :
  str_all p (Py.take_while p s) = true.
Proof.
  induction s as [|c s IH]; simpl; [reflexivity|].
  destruct (p c) eqn:Hc; simpl; [rewrite Hc; exact IH | reflexivity].
Qed.

Lemma search_run_some (p : ascii -> bool) (n : nat) (s run : string) :
  Py.search_run p n s = Some run ->
  (n <= String.length run)%nat /\ str_all p run = true.
Proof.
  induction s as [|c s IH]; simpl.
  - destruct (n <=? 0)%nat eqn:Hn; [|discriminate].
    intros H; injection H as <-. apply Nat.leb_le in Hn. split; [exact Hn | reflexivity].
  - destruct (n <=? String.length (if p c then String c (Py.take_while p s) else ""))%nat eqn:Hn.
    + intros H; injection H as <-. apply Nat.leb_le in Hn. split; [exact Hn|].
      exact (str_all_take_while p (String c s)).
    + exact IH.
Qed.

Lemma str_all_lstrip (p : ascii -> bool) (s : string) :
  str_all p s = true -> str_all p (Py.lstrip s) = true.
Proof.
  induction s as [|c s IH]; simpl; [trivial|].
  intros H. apply andb_prop in H as [Hc Hs].
  destruct (Py.is_space c); [auto | simpl; now rewrite Hc, Hs].
Qed.

Lemma str_all_rstrip (p : ascii -> bool) (s : string) :
  str_all p s = true -> str_all p (Py.rstrip s) = true.
Proof.
  induction s as [|c s IH]; simpl; [trivial|].
  intros H. apply andb_prop in H as [Hc Hs]. specialize (IH Hs).
  destruct (Py.rstrip s) as [|d r].
  - destruct (Py.is_space c); simpl; [reflexivity | now rewrite Hc].
  - simpl in *. now rewrite Hc, IH.
Qed.

Lemma str_all_strip (p : ascii -> bool) (s : string) :
  str_all p s = true -> str_all p (Py.strip s) = true.
Proof.
  intros H. unfold Py.strip. now apply str_all_rstrip, str_all_lstrip.
Qed.

(** Lower-casing neither creates nor destroys a space or a hyphen. *)
Lemma lower_char_separator (c : ascii) :
  Ascii.eqb (Py.lower_char c) " " = Ascii.eqb c " " /\
  Ascii.eqb (Py.lower_char c) "-" = Ascii.eqb c "-".
Proof.
  destruct c as [[] [] [] [] [] [] [] []]; split; reflexivity.
Qed.

(** On the text of the model, where [str.lower] works character by
    character, the two [replace] calls of line 119, after [lower], remove
    what the specification removes before it.  (With code points above 255
    the lower-casing of a letter can depend on its neighbours, and the order
    of the steps can then matter.) *)
Lemma remove_after_lower (s : string) :
  Py.remove_char "-" (Py.remove_char " " (Py.lower s))
  = Py.lower (remove_spaces_and_hyphens s).
Proof.
  induction s as [|c s IH]; simpl; [reflexivity|].
  destruct (lower_char_separator c) as [Hsp Hhy].
  rewrite Hsp. destruct (Ascii.eqb c " ") eqn:Esp; simpl; [exact IH|].
  rewrite Hhy. destruct (Ascii.eqb c "-") eqn:Ehy; simpl; [exact IH|].
  now rewrite IH.
Qed.

Lemma make_email_spec (name : string) :
  name <> NA -> make_email name = spec_email name.
Proof.
  intros Hname. unfold make_email, spec_email.
  apply String.eqb_neq in Hname. rewrite Hname. simpl negb. cbv iota.
  now rewrite remove_after_lower.
Qed.

(** ** Facts about the loop *)

Lemma accepted_cons (keyword : string) (listing : node) (rest : list node) :
  accepted keyword (listing :: rest)
  = match extract_listing keyword listing with
    | Some business => business :: accepted keyword rest
    | None => accepted keyword rest
    end.
Proof.
  unfold accepted; simpl. now destruct (extract_listing keyword listing).
Qed.

Lemma accepted_length (keyword : string) (listings : list node) :
  (List.length (accepted keyword listings) <= List.length listings)%nat.
Proof.
  induction listings as [|l ls IH]; [apply Nat.le_refl|].
  rewrite accepted_cons. destruct (extract_listing keyword l); simpl; lia.
Qed.

Lemma accepted_from_listing (keyword : string) (listings : list node)
  (r : LeadRecord) :
  In r (accepted keyword listings) ->
  exists listing, In listing listings /\ extract_listing keyword listing = Some r.
Proof.
  unfold accepted. intros H. apply in_flat_map in H as [l [Hl Hr]].
  exists l. split; [exact Hl|].
  destruct (extract_listing keyword l) as [b|]; simpl in Hr; [|contradiction].
  destruct Hr as [->|[]]. reflexivity.
Qed.

Lemma extract_listing_acceptable (keyword : string) (listing : node) :
  acceptable listing = true <-> exists r, extract_listing keyword listing = Some r.
Proof.
  unfold acceptable, extract_listing.
  destruct (negb (extract_name listing =? NA)%string
            && (2 <? String.length (extract_name listing))%nat); split.
  - intros _. eexists. reflexivity.
  - reflexivity.
  - discriminate.
  - intros [r H]. discriminate.
Qed.

Lemma accepted_count (keyword : string) (listings : list node) :
  List.length (accepted keyword listings)
  = List.length (filter acceptable listings).
Proof.
  induction listings as [|l ls IH]; [reflexivity|].
  rewrite accepted_cons. simpl.
  destruct (acceptable l) eqn:Hacc.
  - apply (extract_listing_acceptable keyword) in Hacc as [r Hr].
    rewrite Hr. simpl. now rewrite IH.
  - destruct (extract_listing keyword l) as [r|] eqn:Hr; [|exact IH].
    assert (acceptable l = true) as Habs
      by (apply (extract_listing_acceptable keyword); now exists r).
    congruence.
Qed.

(** Whatever the counter and the bound, the loop returns, and what it returns
    extends the list it was given by a prefix of the records of its
    listings. *)
Lemma for_listings_returns (keyword : string) (max_results : Z)
  (listings : list node) :
  forall (count : Z) (businesses : list LeadRecord),
  exists log n,
    for_listings keyword max_results listings count businesses
    = (log, Returned (businesses ++ firstn n (accepted keyword listings))).
Proof.
  induction listings as [|l ls IH]; intros count businesses.
  - exists [], 0%nat. simpl. now rewrite app_nil_r.
  - rewrite accepted_cons. simpl.
    destruct (extract_listing keyword l) as [b|].
    + unfold bind, emit.
      destruct (count + 1 >=? max_results)%Z.
      * exists [Text_extracted (count + 1) (business_name b)], 1%nat. reflexivity.
      * destruct (IH (count + 1)%Z (businesses ++ [b])) as [log [n H]].
        rewrite H. exists (Text_extracted (count + 1) (business_name b) :: log), (S n).
        simpl. now rewrite <- app_assoc.
    + apply IH.
Qed.

(** When the bound leaves room for every listing, the loop goes through all
    of them: the test of line 151 can only fire on the last one. *)
Lemma for_listings_all (keyword : string) (max_results : Z)
  (listings : list node) :
  forall (count : Z) (businesses : list LeadRecord),
  (count + Z.of_nat (List.length listings) <= max_results)%Z ->
  snd (for_listings keyword max_results listings count businesses)
  = Returned (businesses ++ accepted keyword listings).
Proof.
  induction listings as [|l ls IH]; intros count businesses Hroom.
  - simpl. now rewrite app_nil_r.
  - rewrite accepted_cons. simpl.
    destruct (extract_listing keyword l) as [b|].
    + unfold bind, emit.
      destruct (count + 1 >=? max_results)%Z eqn:Hbreak.
      * apply Z.geb_le in Hbreak. simpl in Hroom.
        destruct ls as [|l' ls']; [reflexivity | simpl in Hroom; lia].
      * specialize (IH (count + 1)%Z (businesses ++ [b])).
        destruct (for_listings keyword max_results ls (count + 1) (businesses ++ [b]))
          as [log r] eqn:Hrun.
        simpl in *. rewrite IH by lia. now rewrite <- app_assoc.
    + apply IH. simpl in Hroom. lia.
Qed.

Lemma slice_to_length {A : Type} (l : list A) (k : Z) :
  (0 <= k)%Z -> (Z.of_nat (List.length (Py.slice_to l k)) <= k)%Z.
Proof.
  intros Hk. unfold Py.slice_to.
  destruct (0 <=? k)%Z eqn:E; [|apply Z.leb_gt in E; lia].
  pose proof (firstn_le_length (Z.to_nat k) l). lia.
Qed.

Lemma slice_to_nonneg {A : Type} (l : list A) (k : Z) :
  (0 <= k)%Z -> Py.slice_to l k = firstn (Z.to_nat k) l.
Proof.
  intros Hk. unfold Py.slice_to.
  destruct (0 <=? k)%Z eqn:E; [reflexivity | apply Z.leb_gt in E; lia].
Qed.

(** The cascade returns the listings of [chosen_listings]. *)
Lemma select_listings_chosen (soup : node) :
  snd (select_listings soup) = Returned (chosen_listings soup).
Proof.
  unfold select_listings, chosen_listings.
  destruct (primary_listings soup) as [|p ps]; simpl.
  - destruct (store_details_listings soup); reflexivity.
  - reflexivity.
Qed.

Lemma select_listings_primary (soup : node) :
  primary_listings soup <> [] ->
  select_listings soup = ([], Returned (primary_listings soup)).
Proof.
  intros Hne. unfold select_listings.
  destruct (primary_listings soup) as [|p ps]; [contradiction | reflexivity].
Qed.

Lemma process_listings_returns (keyword : string) (max_results : Z)
  (listings : list node) :
  exists log n,
    process_listings keyword max_results listings
    = (log, Returned (firstn n (accepted keyword (Py.slice_to listings max_results)))).
Proof.
  unfold process_listings, bind, emit.
  destruct (for_listings_returns keyword max_results
              (Py.slice_to listings max_results) 0%Z []) as [log [n H]].
  rewrite H. simpl app.
  destruct (firstn n (accepted keyword (Py.slice_to listings max_results)))
    as [|b bs] eqn:Hout; simpl.
  - eexists _, 0%nat. reflexivity.
  - eexists _, n. rewrite Hout. reflexivity.
Qed.

Lemma process_listings_all (keyword : string) (max_results : Z)
  (listings : list node) :
  (0 <= max_results)%Z ->
  snd (process_listings keyword max_results listings)
  = Returned (accepted keyword (firstn (Z.to_nat max_results) listings)).
Proof.
  intros Hmax. unfold process_listings, bind, emit.
  pose proof (for_listings_all keyword max_results
                (Py.slice_to listings max_results) 0%Z []) as Hall.
  pose proof (slice_to_length listings max_results Hmax) as Hlen.
  rewrite <- (slice_to_nonneg listings max_results Hmax).
  destruct (for_listings keyword max_results (Py.slice_to listings max_results) 0 [])
    as [log r].
  simpl in Hall. rewrite Hall by lia. simpl.
  destruct (accepted keyword (Py.slice_to listings max_results)); reflexivity.
Qed.

Section ScraperFacts.

Variable requests_get : string -> outcome response.
Variable BeautifulSoup : string -> outcome node.

(** The scraper always returns, and its rows are a prefix of the records of
    the listings it kept (no listing at all when the fetch or the parse
    failed). *)
Lemma scrape_justdial_returns (keyword location : string) (max_results : Z) :
  exists log listings n,
    scrape_justdial requests_get BeautifulSoup keyword location max_results
    = (log, Returned (firstn n (accepted keyword (Py.slice_to listings max_results)))).
Proof.
  unfold scrape_justdial, try_except, bind, call, emit.
  destruct (requests_get (search_url keyword location)) as [resp|e]; simpl.
  - destruct (negb (status_code resp =? 200)%Z); simpl.
    + eexists _, [], 0%nat. reflexivity.
    + destruct (BeautifulSoup (content resp)) as [soup|e]; simpl.
      * pose proof (select_listings_chosen soup) as Hsel.
        destruct (select_listings soup) as [slog sres]. simpl in Hsel. subst sres.
        destruct (process_listings_returns keyword max_results (chosen_listings soup))
          as [plog [n Hp]].
        rewrite Hp. eexists _, (chosen_listings soup), n. reflexivity.
      * eexists _, [], 0%nat. reflexivity.
  - eexists _, [], 0%nat. reflexivity.
Qed.

(** Every row comes from a listing that passed the test of line 136. *)
Lemma scrape_justdial_rows (keyword location : string) (max_results : Z) :
  exists log df,
    scrape_justdial requests_get BeautifulSoup keyword location max_results
    = (log, Returned df) /\
    forall r, In r df -> exists listing, extract_listing keyword listing = Some r.
Proof.
  destruct (scrape_justdial_returns keyword location max_results)
    as [log [listings [n H]]].
  eexists _, _. split; [exact H|].
  intros r Hr.
  assert (In r (accepted keyword (Py.slice_to listings max_results))) as Hin.
  { rewrite <- (firstn_skipn n). apply in_or_app. now left. }
  apply accepted_from_listing in Hin as [listing [_ Hl]]. now exists listing.
Qed.

(** On a fetched and parsed page the rows are those of [process_listings]
    on the listings of the cascade. *)
Lemma scrape_justdial_on_page (keyword location : string) (max_results : Z)
  (resp : response) (soup : node) :
  requests_get (search_url keyword location) = Returned resp ->
  status_code resp = 200%Z ->
  BeautifulSoup (content resp) = Returned soup ->
  snd (scrape_justdial requests_get BeautifulSoup keyword location max_results)
  = snd (process_listings keyword max_results (chosen_listings soup)).
Proof.
  intros Hget Hstatus Hparse.
  unfold scrape_justdial, try_except, bind, call, emit.
  rewrite Hget, Hstatus, Hparse. simpl.
  pose proof (select_listings_chosen soup) as Hsel.
  destruct (select_listings soup) as [slog sres]. simpl in Hsel. subst sres.
  destruct (process_listings_returns keyword max_results (chosen_listings soup))
    as [plog [n Hp]].
  rewrite Hp. reflexivity.
Qed.

End ScraperFacts.

(** ** The size of the result *)

(** C1. For every page, keyword and result count [max_results] (a count, so
    not negative), the scraper returns a frame of at most [max_results]
    rows. *)
Theorem scrape_justdial_at_most_max_results
  (requests_get : string -> outcome response)
  (BeautifulSoup : string -> outcome node)
  (keyword location : string) (max_results : Z) :
  (0 <= max_results)%Z ->
  exists log df,
    scrape_justdial requests_get BeautifulSoup keyword location max_results
    = (log, Returned df) /\
    (Z.of_nat (List.length df) <= max_results)%Z.
Proof.
  intros Hmax.
  destruct (scrape_justdial_returns requests_get BeautifulSoup
              keyword location max_results) as [log [listings [n H]]].
  eexists _, _. split; [exact H|].
  pose proof (length_firstn n (accepted keyword (Py.slice_to listings max_results))).
  pose proof (accepted_length keyword (Py.slice_to listings max_results)).
  pose proof (slice_to_length listings max_results Hmax).
  lia.
Qed.

Lemma scrape_justdial_at_most_max_results_witness :
  (0 <= 2)%Z /\
  exists log df,
    scrape_justdial (Fixture.serve 200) (Fixture.parse_as Fixture.page_three)
      "Coffee Shop" "New Delhi" 2
    = (log, Returned df) /\
    (Z.of_nat (List.length df) <= 2)%Z.
Proof.
  split; [lia|].
  apply (scrape_justdial_at_most_max_results
           (Fixture.serve 200) (Fixture.parse_as Fixture.page_three)
           "Coffee Shop" "New Delhi" 2).
  lia.
Defined.

(** A negative [max_results] makes the slice of line 74 count from the end
    of the listings, and a row is still appended before the test of
    line 151. *)
Remark scrape_justdial_negative_max_results :
  snd (scrape_justdial (Fixture.serve 200) (Fixture.parse_as Fixture.page_three)
         "tea" "kochi" (-1))
  = Returned [mkLead "Cafe Blue-Moon Express Kochi" "info@cafebluemoonexp.com"
                     NA NA "tea" NA NA].
Proof. vm_compute. reflexivity. Qed.

(** C4, as stated: the number of rows is the smaller of [max_results] and
    the number of acceptable listings of the page.  It fails when a skipped
    listing comes first: three listings are examined, two rows are
    returned, although the page holds three acceptable listings. *)
Lemma skipped_listing_uses_budget :
  exists df,
    snd (scrape_justdial (Fixture.serve 200)
           (Fixture.parse_as Fixture.page_skip_first) "tea" "kochi" 3)
    = Returned df /\
    List.length df = 2%nat /\
    Nat.min 3 (List.length (filter acceptable
                              (chosen_listings Fixture.page_skip_first))) = 3%nat.
Proof.
  eexists. split; [vm_compute; reflexivity|]. split; reflexivity.
Qed.

(** C4, amended. On a fetched and parsed page, only the first [max_results]
    listings are examined; the rows are the records of the acceptable ones
    among them, so their number is the number of acceptable listings among
    the first [max_results]. *)
Theorem accepted_among_first_max_results
  (requests_get : string -> outcome response)
  (BeautifulSoup : string -> outcome node)
  (keyword location : string) (max_results : Z)
  (resp : response) (soup : node) :
  requests_get (search_url keyword location) = Returned resp ->
  status_code resp = 200%Z ->
  BeautifulSoup (content resp) = Returned soup ->
  (0 <= max_results)%Z ->
  let examined := firstn (Z.to_nat max_results) (chosen_listings soup) in
  snd (scrape_justdial requests_get BeautifulSoup keyword location max_results)
  = Returned (accepted keyword examined) /\
  List.length (accepted keyword examined)
  = List.length (filter acceptable examined).
Proof.
  intros Hget Hstatus Hparse Hmax examined. split.
  - rewrite (scrape_justdial_on_page requests_get BeautifulSoup keyword location
               max_results resp soup Hget Hstatus Hparse).
    now apply process_listings_all.
  - apply accepted_count.
Qed.

Lemma accepted_among_first_max_results_witness :
  let examined := firstn 3 (chosen_listings Fixture.page_skip_first) in
  snd (scrape_justdial (Fixture.serve 200)
         (Fixture.parse_as Fixture.page_skip_first) "tea" "kochi" 3)
  = Returned (accepted "tea" examined) /\
  List.length (accepted "tea" examined)
  = List.length (filter acceptable examined).
Proof.
  apply (accepted_among_first_max_results
           (Fixture.serve 200) (Fixture.parse_as Fixture.page_skip_first)
           "tea" "kochi" 3 (mkResponse 200 "<html>") Fixture.page_skip_first);
    [reflexivity | reflexivity | reflexivity | lia].
Defined.

(** ** The fields of a row *)

Lemma extract_listing_some (keyword : string) (listing : node) (r : LeadRecord) :
  extract_listing keyword listing = Some r ->
  r = mkLead (extract_name listing) (make_email (extract_name listing))
             (extract_phone listing) (extract_address listing) keyword
             (extract_website listing) (extract_social listing)
  /\ extract_name listing <> NA
  /\ (2 < String.length (extract_name listing))%nat.
Proof.
  unfold extract_listing.
  destruct (negb (extract_name listing =? NA)%string) eqn:Hna; simpl; [|discriminate].
  destruct (2 <? String.length (extract_name listing))%nat eqn:Hlen; [|discriminate].
  intros H; injection H as <-.
  apply negb_true_iff, String.eqb_neq in Hna. apply Nat.ltb_lt in Hlen.
  repeat split; assumption.
Qed.

(** C2. Every row of every frame the scraper returns has a business name
    that is not the sentinel and is longer than two characters. *)
Theorem row_name_resolved
  (requests_get : string -> outcome response)
  (BeautifulSoup : string -> outcome node)
  (keyword location : string) (max_results : Z) :
  exists log df,
    scrape_justdial requests_get BeautifulSoup keyword location max_results
    = (log, Returned df) /\
    forall r, In r df ->
      business_name r <> NA /\ (2 < String.length (business_name r))%nat.
Proof.
  destruct (scrape_justdial_rows requests_get BeautifulSoup
              keyword location max_results) as [log [df [H Hrows]]].
  exists log, df. split; [exact H|].
  intros r Hr. destruct (Hrows r Hr) as [listing Hl].
  apply extract_listing_some in Hl as [-> [Hna Hlen]]. simpl. now split.
Qed.

(** On the three-listing page the frame has three rows, each with its
    name. *)
Lemma row_name_resolved_witness :
  snd (scrape_justdial (Fixture.serve 200) (Fixture.parse_as Fixture.page_three)
         "tea" "kochi" 10)
  = Returned (accepted "tea" (primary_listings Fixture.page_three)) /\
  List.length (accepted "tea" (primary_listings Fixture.page_three)) = 3%nat /\
  exists log df,
    scrape_justdial (Fixture.serve 200) (Fixture.parse_as Fixture.page_three)
      "tea" "kochi" 10
    = (log, Returned df) /\
    forall r, In r df ->
      business_name r <> NA /\ (2 < String.length (business_name r))%nat.
Proof.
  split; [vm_compute; reflexivity|]. split; [vm_compute; reflexivity|].
  apply (row_name_resolved (Fixture.serve 200)
           (Fixture.parse_as Fixture.page_three) "tea" "kochi" 10).
Defined.

(** C3. On every row the e-mail is ["info@"], then the first 15 characters
    of the name lower-cased and with its spaces and hyphens removed, then
    [".com"]; it is never the sentinel.  The steps are taken in the order of
    line 119: lower-case, remove the spaces, remove the hyphens, cut. *)
Theorem row_email_derived_from_name
  (requests_get : string -> outcome response)
  (BeautifulSoup : string -> outcome node)
  (keyword location : string) (max_results : Z) :
  exists log df,
    scrape_justdial requests_get BeautifulSoup keyword location max_results
    = (log, Returned df) /\
    forall r, In r df ->
      email_id r
      = ("info@"
           ++ Py.take 15 (Py.remove_char "-"
                            (Py.remove_char " " (Py.lower (business_name r))))
           ++ ".com")%string
      /\ email_id r <> NA.
Proof.
  destruct (scrape_justdial_rows requests_get BeautifulSoup
              keyword location max_results) as [log [df [H Hrows]]].
  exists log, df. split; [exact H|].
  intros r Hr. destruct (Hrows r Hr) as [listing Hl].
  apply extract_listing_some in Hl as [-> [Hna Hlen]]. simpl.
  unfold make_email. apply String.eqb_neq in Hna. rewrite Hna. simpl negb.
  cbv iota. split; [reflexivity | discriminate].
Qed.

(** Three plain names, and a name whose accented capital is lower-cased. *)
Lemma row_email_derived_from_name_witness :
  map email_id (accepted "tea" (primary_listings Fixture.page_three))
  = ["info@cafebluemoonexp.com"; "info@teahouse.com"; "info@bakersinn.com"] /\
  map email_id
    (accepted "tea" (primary_listings (Fixture.page_of Scenario.accented_name)))
  = [("info@caf" ++ String "233" "blue.com")%string] /\
  exists log df,
    scrape_justdial (Fixture.serve 200)
      (Fixture.parse_as (Fixture.page_of Scenario.accented_name)) "tea" "kochi" 10
    = (log, Returned df) /\
    forall r, In r df ->
      email_id r
      = ("info@"
           ++ Py.take 15 (Py.remove_char "-"
                            (Py.remove_char " " (Py.lower (business_name r))))
           ++ ".com")%string
      /\ email_id r <> NA.
Proof.
  split; [vm_compute; reflexivity|]. split; [vm_compute; reflexivity|].
  apply (row_email_derived_from_name (Fixture.serve 200)
           (Fixture.parse_as (Fixture.page_of Scenario.accented_name))
           "tea" "kochi" 10).
Defined.

(** C6, as stated: a resolved phone number holds only digits, spaces, plus,
    parentheses and hyphens, and has at least 10 characters.  It fails on a
    number padded with spaces and grouped by a tab: the run that matched has
    15 characters, the field keeps 8 of them, one of which is the tab. *)
Lemma phone_shorter_after_strip :
  exists r,
    snd (scrape_justdial (Fixture.serve 200)
           (Fixture.parse_as (Fixture.page_of Fixture.padded_phone))
           "tea" "kochi" 3)
    = Returned [r] /\
    phone_number r = ("2345" ++ String "009" "678")%string /\
    phone_number r <> NA /\
    str_all spec_phone_char (phone_number r) = false /\
    String.length (phone_number r) = 8%nat.
Proof.
  eexists. split; [vm_compute; reflexivity|]. simpl.
  repeat split; try reflexivity. discriminate.
Qed.

(** Where the search of line 93 stops reading a run. *)
Lemma take_while_split (p : ascii -> bool) (s : string) :
  exists post,
    s = (Py.take_while p s ++ post)%string /\ Py.take_while p post = "".
Proof.
  induction s as [|c s [post [Hs Hpost]]]; [now exists ""|]. simpl.
  destruct (p c) eqn:Hc.
  - exists post. split; [simpl; now rewrite <- Hs | exact Hpost].
  - exists (String c s). split; [reflexivity | simpl; now rewrite Hc].
Qed.

Lemma search_run_unfold (p : ascii -> bool) (n : nat) (s : string) :
  Py.search_run p n s
  = if (n <=? String.length (Py.take_while p s))%nat
    then Some (Py.take_while p s)
    else match s with
         | EmptyString => None
         | String _ s' => Py.search_run p n s'
         end.
Proof. destruct s; reflexivity. Qed.

(** What [search_run] finds is the leftmost place where [n] characters of
    the class begin, read as far as the class goes; it finds nothing only
    when there is no such place. *)
Lemma search_run_leftmost (p : ascii -> bool) (n : nat) (s : string) :
  match Py.search_run p n s with
  | Some run =>
      exists pre post,
        s = (pre ++ run ++ post)%string /\
        (n <= String.length run)%nat /\
        str_all p run = true /\
        Py.take_while p post = "" /\
        forall pre1 pre2 : string,
          pre = (pre1 ++ pre2)%string -> pre2 <> "" ->
          (String.length (Py.take_while p (pre2 ++ run ++ post)) < n)%nat
  | None =>
      forall pre rest : string,
        s = (pre ++ rest)%string ->
        (String.length (Py.take_while p rest) < n)%nat
  end.
Proof.
  induction s as [|c s IH]; rewrite search_run_unfold.
  - destruct (n <=? String.length (Py.take_while p ""))%nat eqn:Hn.
    + exists "", "". apply Nat.leb_le in Hn. repeat split; trivial.
      intros [|c1 pre1] pre2 Hpre Hne; simpl in Hpre; [congruence | discriminate].
    + apply Nat.leb_gt in Hn. intros [|c1 pre] rest Hs; simpl in Hs;
        [subst rest; exact Hn | discriminate].
  - destruct (n <=? String.length (Py.take_while p (String c s)))%nat eqn:Hn.
    + destruct (take_while_split p (String c s)) as [post [Hs Hpost]].
      exists "", post. apply Nat.leb_le in Hn.
      repeat split; [exact Hs | exact Hn | apply str_all_take_while | exact Hpost |].
      intros [|c1 pre1] pre2 Hpre Hne; simpl in Hpre; [congruence | discriminate].
    + apply Nat.leb_gt in Hn. revert IH.
      destruct (Py.search_run p n s) as [run|].
      * intros [pre [post [Hs [Hlen [Hall [Hpost Hleft]]]]]].
        exists (String c pre), post.
        repeat split; [simpl; now rewrite <- Hs | exact Hlen | exact Hall | exact Hpost |].
        intros [|c1 pre1] pre2 Hpre Hne; simpl in Hpre.
        -- subst pre2. simpl append. rewrite <- Hs. exact Hn.
        -- injection Hpre as _ Hpre. now apply (Hleft pre1 pre2).
      * intros Hnone [|c1 pre] rest Hs; simpl in Hs.
        -- subst rest. exact Hn.
        -- injection Hs as _ Hs. now apply (Hnone pre rest).
Qed.

(** C6, amended. The phone number of a listing is read from the text of its
    contact marker: it is the leftmost run of at least 10 characters among
    digits, whitespace, hyphen, plus and parentheses, taken as far as such
    characters go, with the whitespace at its two ends removed.  Each of
    its characters is in that set, and the run, not the field, has at least
    10 characters.  The field is the sentinel when there is no marker or no
    such run in its text.  The row of an accepted listing carries that
    value. *)
Theorem phone_is_stripped_leftmost_run (keyword : string) (listing : node) :
  match or_else (find (by_class "p" (Exact "contact-info")) listing)
                (find (by_class "span" (Exact "mobilesv")) listing) with
  | None => extract_phone listing = NA
  | Some phone_tag =>
      (no_phone_match (get_text_strip phone_tag) /\ extract_phone listing = NA)
      \/ (exists pre run post,
            is_phone_match (get_text_strip phone_tag) pre run post /\
            extract_phone listing = Py.strip run /\
            str_all phone_char (extract_phone listing) = true /\
            extract_phone listing <> NA)
  end
  /\ match extract_listing keyword listing with
     | Some r => phone_number r = extract_phone listing
     | None => True
     end.
Proof.
  split.
  - unfold extract_phone.
    destruct (or_else _ _) as [phone_tag|]; [|reflexivity].
    pose proof (search_run_leftmost phone_char 10 (get_text_strip phone_tag))
      as Hsearch.
    destruct (Py.search_run phone_char 10 (get_text_strip phone_tag)) as [run|].
    + right. destruct Hsearch as [pre [post [Hs [Hlen [Hall [Hpost Hleft]]]]]].
      assert (str_all phone_char (Py.strip run) = true) as Hstrip
        by now apply str_all_strip.
      exists pre, run, post. unfold is_phone_match.
      repeat split; try assumption.
      intros Hna. rewrite Hna in Hstrip. discriminate Hstrip.
    + left. split; [exact Hsearch | reflexivity].
  - destruct (extract_listing keyword listing) as [r|] eqn:Hr; [|exact I].
    apply extract_listing_some in Hr as [-> _]. reflexivity.
Qed.

(** "Open 7 days" holds no run of 10, so there is no phone number; the
    padded number is found, and what is kept of its run is shorter. *)
Lemma phone_is_stripped_leftmost_run_witness :
  (no_phone_match "Open 7 days" /\ extract_phone Scenario.opening_days = NA) /\
  exists pre run post,
    is_phone_match ("Tel:    2345" ++ String "009" "678   ext") pre run post /\
    extract_phone Fixture.padded_phone = Py.strip run /\
    str_all phone_char (extract_phone Fixture.padded_phone) = true /\
    extract_phone Fixture.padded_phone <> NA.
Proof.
  split.
  - destruct (phone_is_stripped_leftmost_run "tea" Scenario.opening_days)
      as [H _].
    change ((no_phone_match "Open 7 days"
             /\ extract_phone Scenario.opening_days = NA)
            \/ (exists pre run post,
                  is_phone_match "Open 7 days" pre run post /\
                  extract_phone Scenario.opening_days = Py.strip run /\
                  str_all phone_char (extract_phone Scenario.opening_days) = true /\
                  extract_phone Scenario.opening_days <> NA)) in H.
    destruct H as [H | [pre [run [post [_ [_ [_ Hne]]]]]]]; [exact H|].
    exfalso. apply Hne. reflexivity.
  - destruct (phone_is_stripped_leftmost_run "tea" Fixture.padded_phone)
      as [H _].
    change ((no_phone_match ("Tel:    2345" ++ String "009" "678   ext")
             /\ extract_phone Fixture.padded_phone = NA)
            \/ (exists pre run post,
                  is_phone_match ("Tel:    2345" ++ String "009" "678   ext")
                    pre run post /\
                  extract_phone Fixture.padded_phone = Py.strip run /\
                  str_all phone_char (extract_phone Fixture.padded_phone) = true /\
                  extract_phone Fixture.padded_phone <> NA)) in H.
    destruct H as [[_ Hna] | H]; [|exact H].
    vm_compute in Hna. discriminate Hna.
Defined.

(** ** The website *)

Lemma contains_http_nonempty (h : string) :
  Py.contains "http" h = true -> (h =? "")%string = false.
Proof.
  destruct h; [discriminate | reflexivity].
Qed.

(** The tag found on line 107 is the first link whose target mentions
    [http]; [k] is what is then done with the target. *)
Lemma first_http_link (k : string -> string) (ds : list node) :
  match hd_error (filter (search_tag (by_href "a" (Pattern (Py.contains "http")))) ds) with
  | Some web_tag => match href web_tag with
                    | Some h => k h
                    | None => NA
                    end
  | None => NA
  end
  = match filter (Py.contains "http")
            (flat_map (fun d => match d with
                                | Tag name attrs _ =>
                                    if String.eqb name "a"
                                    then match get attrs "href" with
                                         | Some h => [h]
                                         | None => []
                                         end
                                    else []
                                | Text _ => []
                                end) ds) with
    | h :: _ => k h
    | [] => NA
    end.
Proof.
  induction ds as [|d ds IH]; [reflexivity|].
  destruct d as [s|name attrs cs]; [exact IH|].
  simpl. unfold matches_attr.
  destruct (String.eqb name "a"); simpl; [|exact IH].
  destruct (get attrs "href") as [h|] eqn:Hh; simpl; [|exact IH].
  destruct (Py.contains "http" h) eqn:Hhttp; simpl; [|exact IH].
  now rewrite Hh.
Qed.

(** C5, as stated: the website is the target of the first link that is an
    absolute HTTP(S) URL and does not mention the host.  It fails on a
    listing whose first link goes to the host and whose second link goes to
    the business: the field is the sentinel, not the second link. *)
Lemma website_not_second_link :
  exists r,
    snd (scrape_justdial (Fixture.serve 200)
           (Fixture.parse_as (Fixture.page_of Fixture.two_links))
           "tea" "kochi" 3)
    = Returned [r] /\
    link_targets Fixture.two_links
    = ["https://www.justdial.com/kochi/tea-house"; "https://teahouse.example"] /\
    website_url r = NA /\
    spec_website Fixture.two_links = "https://teahouse.example".
Proof.
  eexists. split; [vm_compute; reflexivity|]. repeat split; reflexivity.
Qed.

(** The pattern of line 107 is searched anywhere in the target, so a relative
    target that mentions [http] is taken as the website. *)
Remark website_of_redirect_link :
  extract_website Fixture.redirect_link = "/out?to=http://teahouse.example" /\
  spec_website Fixture.redirect_link = NA.
Proof. split; reflexivity. Qed.

(** C5, amended. Only the first link whose target mentions [http] is looked
    at: its target is the website unless it mentions the host; with no such
    link, or when that one mentions the host, the field is the sentinel.
    The row of an accepted listing carries that value. *)
Theorem website_is_first_http_link (keyword : string) (listing : node) :
  extract_website listing
  = match filter (Py.contains "http") (link_targets listing) with
    | h :: _ => if Py.contains "justdial" h then NA else h
    | [] => NA
    end
  /\ match extract_listing keyword listing with
     | Some r => website_url r = extract_website listing
     | None => True
     end.
Proof.
  split.
  - unfold extract_website, find, find_all, link_targets.
    rewrite (first_http_link
               (fun h => if negb (h =? "")%string && negb (Py.contains "justdial" h)
                         then h else NA)).
    destruct (filter (Py.contains "http") _) as [|h hs] eqn:Hf; [reflexivity|].
    assert (Py.contains "http" h = true) as Hhttp.
    { assert (In h (h :: hs)) as Hin by now left.
      rewrite <- Hf in Hin. now apply filter_In in Hin. }
    rewrite (contains_http_nonempty h Hhttp). simpl.
    now destruct (Py.contains "justdial" h).
  - destruct (extract_listing keyword listing) as [r|] eqn:Hr; [|exact I].
    apply extract_listing_some in Hr as [-> _]. reflexivity.
Qed.

(** ** The cascade of selectors *)

(** C7. When the primary selector finds a listing, the cascade returns its
    matches without a warning, and the run is the run on those matches:
    after the fetch and the parse comes [process_listings] on the primary
    matches, whatever the other two selectors would find. *)
Theorem primary_selector_short_circuits
  (requests_get : string -> outcome response)
  (BeautifulSoup : string -> outcome node)
  (keyword location : string) (max_results : Z)
  (resp : response) (soup : node) :
  requests_get (search_url keyword location) = Returned resp ->
  status_code resp = 200%Z ->
  BeautifulSoup (content resp) = Returned soup ->
  primary_listings soup <> [] ->
  select_listings soup = ([], Returned (primary_listings soup)) /\
  scrape_justdial requests_get BeautifulSoup keyword location max_results
  = ([Info_searching keyword location; Get (search_url keyword location);
      Parse (content resp)]
     ++ fst (process_listings keyword max_results (primary_listings soup)),
     snd (process_listings keyword max_results (primary_listings soup))).
Proof.
  intros Hget Hstatus Hparse Hprimary.
  pose proof (select_listings_primary soup Hprimary) as Hsel.
  split; [exact Hsel|].
  unfold scrape_justdial, try_except, bind, call, emit.
  rewrite Hget, Hstatus, Hparse. simpl. rewrite Hsel.
  destruct (process_listings_returns keyword max_results (primary_listings soup))
    as [plog [n Hp]].
  rewrite Hp. reflexivity.
Qed.

(** The primary selector finds three listings where the store-details
    selector would find two others. *)
Lemma primary_selector_short_circuits_witness :
  (List.length (primary_listings Fixture.page_three) = 3%nat /\
   List.length (store_details_listings Fixture.page_three) = 2%nat) /\
  select_listings Fixture.page_three
  = ([], Returned (primary_listings Fixture.page_three)) /\
  scrape_justdial (Fixture.serve 200) (Fixture.parse_as Fixture.page_three)
    "tea" "kochi" 10
  = ([Info_searching "tea" "kochi"; Get (search_url "tea" "kochi");
      Parse "<html>"]
     ++ fst (process_listings "tea" 10 (primary_listings Fixture.page_three)),
     snd (process_listings "tea" 10 (primary_listings Fixture.page_three))).
Proof.
  split; [split; reflexivity|].
  apply (primary_selector_short_circuits
           (Fixture.serve 200) (Fixture.parse_as Fixture.page_three)
           "tea" "kochi" 10 (mkResponse 200 "<html>") Fixture.page_three);
    [reflexivity | reflexivity | reflexivity | discriminate].
Defined.

(** ** Failures *)

(** C8. Whatever the network and the parser do, raising included, the
    scraper returns a frame and raises nothing; the frame is empty when the
    fetch raises, when the status is not 200 and when the parse raises. *)
Theorem scrape_justdial_never_raises
  (requests_get : string -> outcome response)
  (BeautifulSoup : string -> outcome node)
  (keyword location : string) (max_results : Z) :
  exists log df,
    scrape_justdial requests_get BeautifulSoup keyword location max_results
    = (log, Returned df) /\
    match requests_get (search_url keyword location) with
    | Raised e => df = [] /\ In (Error_scraping e) log
    | Returned resp =>
        if (status_code resp =? 200)%Z
        then match BeautifulSoup (content resp) with
             | Raised e => df = [] /\ In (Error_scraping e) log
             | Returned _ => True
             end
        else df = []
    end.
Proof.
  destruct (scrape_justdial_returns requests_get BeautifulSoup
              keyword location max_results) as [log [listings [n H]]].
  revert H. unfold scrape_justdial, try_except, bind, call, emit.
  destruct (requests_get (search_url keyword location)) as [resp|e]; simpl.
  - destruct (status_code resp =? 200)%Z; simpl.
    + destruct (BeautifulSoup (content resp)) as [soup|e]; simpl.
      * intros H. eexists _, _. split; [exact H | exact I].
      * intros _. eexists _, _. split; [reflexivity|].
        split; [reflexivity | simpl; auto].
    + intros _. eexists _, _. split; reflexivity.
  - intros _. eexists _, _. split; [reflexivity|].
    split; [reflexivity | simpl; auto].
Qed.

(** A refused connection and a page the parser gives up on: both end in
    the handler of line 163. *)
Remark scrape_justdial_unreachable :
  scrape_justdial Fixture.unreachable (Fixture.parse_as Fixture.page_three)
    "tea" "kochi" 10
  = ([Info_searching "tea" "kochi"; Get (search_url "tea" "kochi");
      Error_scraping "Connection refused"],
     Returned []).
Proof. reflexivity. Qed.

Remark scrape_justdial_unparsable :
  scrape_justdial (Fixture.serve 200) Fixture.unparsable "tea" "kochi" 10
  = ([Info_searching "tea" "kochi"; Get (search_url "tea" "kochi");
      Parse "<html>"; Error_scraping "could not parse"],
     Returned []).
Proof. reflexivity. Qed.

(** C9. When the fetch answers with a status other than 200, the scraper
    reports the status and returns the empty frame; the log ends there:
    nothing was parsed and no listing was looked for. *)
Theorem non_200_status_stops_the_run
  (requests_get : string -> outcome response)
  (BeautifulSoup : string -> outcome node)
  (keyword location : string) (max_results : Z) (resp : response) :
  requests_get (search_url keyword location) = Returned resp ->
  status_code resp <> 200%Z ->
  scrape_justdial requests_get BeautifulSoup keyword location max_results
  = ([Info_searching keyword location; Get (search_url keyword location);
      Error_status (status_code resp)],
     Returned []).
Proof.
  intros Hget Hstatus. apply Z.eqb_neq in Hstatus.
  unfold scrape_justdial, try_except, bind, call, emit.
  rewrite Hget, Hstatus. reflexivity.
Qed.

Lemma non_200_status_stops_the_run_witness :
  scrape_justdial (Fixture.serve 404) (Fixture.parse_as Fixture.page_three)
    "tea" "kochi" 10
  = ([Info_searching "tea" "kochi"; Get (search_url "tea" "kochi");
      Error_status 404],
     Returned []).
Proof.
  apply (non_200_status_stops_the_run
           (Fixture.serve 404) (Fixture.parse_as Fixture.page_three)
           "tea" "kochi" 10 (mkResponse 404 "<html>"));
    [reflexivity | discriminate].
Defined.

(** ** The name *)

(** C10. The headings are consulted only when the primary markers leave the
    name at the sentinel.  A marker that yields any other text settles the
    name; when that text has at most two characters the listing is
    rejected, whatever its headings hold. *)
Theorem short_marker_name_blocks_headings (keyword : string) (listing : node) :
  marker_name listing <> NA ->
  extract_name listing = marker_name listing /\
  ((String.length (marker_name listing) <= 2)%nat ->
   extract_listing keyword listing = None).
Proof.
  intros Hname. apply String.eqb_neq in Hname.
  assert (extract_name listing = marker_name listing) as Heq
    by (unfold extract_name; now rewrite Hname).
  split; [exact Heq|].
  intros Hlen. unfold extract_listing. rewrite Heq.
  replace (2 <? String.length (marker_name listing))%nat with false
    by (symmetry; apply Nat.ltb_ge; exact Hlen).
  now rewrite andb_false_r.
Qed.

Lemma short_marker_name_blocks_headings_witness :
  (find (by_name "h2") Fixture.short_marker = Some (Fixture.heading "Tea House") /\
   marker_name Fixture.short_marker = "TH") /\
  extract_name Fixture.short_marker = marker_name Fixture.short_marker /\
  extract_listing "tea" Fixture.short_marker = None.
Proof.
  split; [split; reflexivity|].
  destruct (short_marker_name_blocks_headings "tea" Fixture.short_marker)
    as [Hname Hreject]; [discriminate|].
  split; [exact Hname | apply Hreject; vm_compute; lia].
Defined.

(** ** Characters of the formatted strings *)

Lemma str_all_app (p : ascii -> bool) (a b : string) :
  str_all p (a ++ b) = str_all p a && str_all p b.
Proof.
  induction a as [|c a IH]; simpl; [reflexivity|].
  now rewrite IH, andb_assoc.
Qed.

Lemma str_length_app (a b : string) :
  String.length (a ++ b) = (String.length a + String.length b)%nat.
Proof.
  induction a as [|c a IH]; simpl; [reflexivity | now rewrite IH].
Qed.

Lemma take_length (n : nat) (s : string) :
  (String.length (Py.take n s) <= n)%nat.
Proof.
  revert s. induction n as [|n IH]; intros [|c s]; simpl; try lia.
  specialize (IH s). lia.
Qed.

Lemma str_all_take (p : ascii -> bool) (n : nat) (s : string) :
  str_all p s = true -> str_all p (Py.take n s) = true.
Proof.
  revert s. induction n as [|n IH]; intros [|c s]; simpl; trivial.
  intros H. apply andb_prop in H as [Hc Hs]. now rewrite Hc, IH.
Qed.

(** The formatting of line 35 on one character. *)
Lemma url_char_formatted (c : ascii) :
  url_char (if Ascii.eqb (Py.lower_char c) " " then "-"%char else Py.lower_char c)
  = true.
Proof.
  destruct c as [[] [] [] [] [] [] [] []]; reflexivity.
Qed.

Lemma formatted_twice (c : ascii) :
  let f := fun c => if Ascii.eqb (Py.lower_char c) " " then "-"%char
                    else Py.lower_char c in
  f (f c) = f c.
Proof.
  destruct c as [[] [] [] [] [] [] [] []]; reflexivity.
Qed.

Lemma str_all_url_formatted (s : string) :
  str_all url_char (Py.replace_char " " "-" (Py.lower s)) = true.
Proof.
  induction s as [|c s IH]; simpl; [reflexivity|].
  now rewrite url_char_formatted, IH.
Qed.

Lemma url_formatted_idempotent (s : string) :
  Py.replace_char " " "-" (Py.lower (Py.replace_char " " "-" (Py.lower s)))
  = Py.replace_char " " "-" (Py.lower s).
Proof.
  induction s as [|c s IH]; simpl; [reflexivity|].
  rewrite IH. f_equal. apply formatted_twice.
Qed.

(** The two formattings of lines 300-301 on one character: [replace] then
    [lower] for the keyword, [lower] then [replace] for the location. *)
Lemma filename_char_keyword (c : ascii) :
  url_char (Py.lower_char (if Ascii.eqb c " " then "_"%char else c)) = true.
Proof.
  destruct c as [[] [] [] [] [] [] [] []]; reflexivity.
Qed.

Lemma filename_char_location (c : ascii) :
  url_char (if Ascii.eqb (Py.lower_char c) " " then "_"%char else Py.lower_char c)
  = true.
Proof.
  destruct c as [[] [] [] [] [] [] [] []]; reflexivity.
Qed.

Lemma str_all_filename_keyword (s : string) :
  str_all url_char (Py.lower (Py.replace_char " " "_" s)) = true.
Proof.
  induction s as [|c s IH]; simpl; [reflexivity|].
  now rewrite filename_char_keyword, IH.
Qed.

Lemma str_all_filename_location (s : string) :
  str_all url_char (Py.replace_char " " "_" (Py.lower s)) = true.
Proof.
  induction s as [|c s IH]; simpl; [reflexivity|].
  now rewrite filename_char_location, IH.
Qed.

Lemma slug_char_lower (c : ascii) :
  Ascii.eqb (Py.lower_char c) " " = false ->
  Ascii.eqb (Py.lower_char c) "-" = false ->
  slug_char (Py.lower_char c) = true.
Proof.
  destruct c as [[] [] [] [] [] [] [] []]; intros H1 H2;
    solve [reflexivity | discriminate H1 | discriminate H2].
Qed.

Lemma str_all_email_name (s : string) :
  str_all slug_char (Py.remove_char "-" (Py.remove_char " " (Py.lower s))) = true.
Proof.
  induction s as [|c s IH]; simpl; [reflexivity|].
  destruct (Ascii.eqb (Py.lower_char c) " ") eqn:Esp; [exact IH|]. simpl.
  destruct (Ascii.eqb (Py.lower_char c) "-") eqn:Ehy; [exact IH|]. simpl.
  now rewrite (slug_char_lower c Esp Ehy), IH.
Qed.

(** ** Whitespace of the text fields *)

Lemma single_spaced_collapse (s : string) :
  forall in_run, single_spaced in_run (Py.collapse_ws in_run s) = true.
Proof.
  induction s as [|c s IH]; intros in_run; simpl; [reflexivity|].
  destruct (Py.is_space c) eqn:Hc.
  - destruct in_run; [apply IH|]. simpl. apply IH.
  - simpl. rewrite Hc. apply IH.
Qed.

Lemma lstrip_start (s : string) : starts_with_space (Py.lstrip s) = false.
Proof.
  induction s as [|c s IH]; simpl; [reflexivity|].
  destruct (Py.is_space c) eqn:Hc; [exact IH | simpl; exact Hc].
Qed.

Lemma rstrip_start (s : string) :
  starts_with_space s = false -> starts_with_space (Py.rstrip s) = false.
Proof.
  destruct s as [|c s]; simpl; [trivial|]. intros Hc.
  destruct (Py.rstrip s); [rewrite Hc|]; simpl; trivial.
Qed.

Lemma rstrip_end (s : string) : ends_with_space (Py.rstrip s) = false.
Proof.
  induction s as [|c s IH]; simpl; [reflexivity|].
  destruct (Py.rstrip s) as [|d r].
  - destruct (Py.is_space c) eqn:Hc; simpl; [reflexivity | exact Hc].
  - exact IH.
Qed.

Lemma strip_trimmed (s : string) : trimmed (Py.strip s) = true.
Proof.
  unfold trimmed, Py.strip.
  now rewrite (rstrip_start _ (lstrip_start s)), rstrip_end.
Qed.

Lemma starts_with_space_app (a b : string) :
  a <> "" -> starts_with_space (a ++ b) = starts_with_space a.
Proof.
  destruct a; [congruence | reflexivity].
Qed.

Lemma ends_with_space_app (a b : string) :
  b <> "" -> ends_with_space (a ++ b) = ends_with_space b.
Proof.
  intros Hb. induction a as [|c a IH]; [reflexivity|].
  simpl. rewrite IH.
  destruct (a ++ b)%string eqn:Hab; [|reflexivity].
  destruct a; simpl in Hab; [congruence | discriminate].
Qed.

(** Pieces that are trimmed and not empty join to a trimmed text. *)
Lemma join_trimmed (pieces : list string) :
  Forall (fun x => trimmed x = true /\ x <> "") pieces ->
  trimmed (Py.join "" pieces) = true /\ (pieces <> [] -> Py.join "" pieces <> "").
Proof.
  induction 1 as [|x rest [Hx Hne] Hrest [IHt IHne]]; [split; [reflexivity | congruence]|].
  destruct rest as [|y rest'].
  - simpl. split; [exact Hx | intros _; exact Hne].
  - assert (Py.join "" (y :: rest') <> "") as Hj by (apply IHne; discriminate).
    change (Py.join "" (x :: y :: rest')) with (x ++ Py.join "" (y :: rest'))%string.
    split.
    + unfold trimmed in *.
      rewrite (starts_with_space_app _ _ Hne), (ends_with_space_app _ _ Hj).
      apply andb_prop in Hx as [Hx1 _]. apply andb_prop in IHt as [_ IH2].
      now rewrite Hx1, IH2.
    + intros _ Habs. destruct x; [congruence | discriminate].
Qed.

Lemma stripped_strings_trimmed (n : node) :
  Forall (fun x => trimmed x = true /\ x <> "") (stripped_strings n).
Proof.
  unfold stripped_strings. apply Forall_forall. intros x Hx.
  apply in_flat_map in Hx as [d [_ Hd]].
  destruct d as [s|]; [|contradiction].
  destruct (Py.strip s =? "")%string eqn:He; [contradiction|].
  destruct Hd as [<-|[]]. split; [apply strip_trimmed | now apply String.eqb_neq].
Qed.

Lemma get_text_strip_trimmed (n : node) : trimmed (get_text_strip n) = true.
Proof.
  unfold get_text_strip. apply join_trimmed, stripped_strings_trimmed.
Qed.

Lemma collapse_ws_end (s : string) :
  ends_with_space s = false ->
  forall in_run,
    ends_with_space (Py.collapse_ws in_run s) = false /\
    (s <> "" -> Py.collapse_ws in_run s <> "").
Proof.
  induction s as [|c s IH]; intros Hend in_run; [split; [reflexivity | congruence]|].
  destruct s as [|d s'].
  - simpl in *. rewrite Hend. simpl. rewrite Hend. split; [reflexivity | discriminate].
  - assert (ends_with_space (String d s') = false) as Hend' by exact Hend.
    assert (forall b, ends_with_space (Py.collapse_ws b (String d s')) = false /\
                      Py.collapse_ws b (String d s') <> "") as Hrest.
    { intros b. destruct (IH Hend' b) as [H1 H2]. split; [exact H1|].
      apply H2. discriminate. }
    assert (forall x b, ends_with_space (String x (Py.collapse_ws b (String d s'))) = false)
      as Hcons.
    { intros x b. destruct (Hrest b) as [H1 H2].
      destruct (Py.collapse_ws b (String d s')) eqn:E; [congruence | exact H1]. }
    change (Py.collapse_ws in_run (String c (String d s')))
      with (if Py.is_space c
            then (if in_run then Py.collapse_ws true (String d s')
                  else String " " (Py.collapse_ws true (String d s')))
            else String c (Py.collapse_ws false (String d s'))).
    destruct (Py.is_space c); [destruct in_run|].
    + destruct (Hrest true) as [H1 H2]. split; [exact H1 | intros _; exact H2].
    + split; [apply Hcons | discriminate].
    + split; [apply Hcons | discriminate].
Qed.

Lemma collapse_ws_trimmed (s : string) :
  trimmed s = true -> trimmed (Py.collapse_ws false s) = true.
Proof.
  unfold trimmed. intros H. apply andb_prop in H as [Hs He].
  apply negb_true_iff in Hs, He.
  destruct (collapse_ws_end s He false) as [He' _]. rewrite He'.
  destruct s as [|c s]; [reflexivity|]. simpl in Hs. simpl. rewrite Hs. simpl.
  now rewrite Hs.
Qed.

Lemma extract_name_trimmed (listing : node) :
  trimmed (extract_name listing) = true.
Proof.
  assert (trimmed (marker_name listing) = true) as Hm.
  { unfold marker_name. destruct (or_else _ _); [apply get_text_strip_trimmed | reflexivity]. }
  unfold extract_name. destruct (marker_name listing =? NA)%string; [|exact Hm].
  destruct (or_else _ _); [apply get_text_strip_trimmed | exact Hm].
Qed.

Lemma extract_phone_trimmed (listing : node) :
  trimmed (extract_phone listing) = true.
Proof.
  unfold extract_phone. destruct (or_else _ _); [|reflexivity].
  destruct (Py.search_run _ _ _); [apply strip_trimmed | reflexivity].
Qed.

Lemma extract_address_trimmed (listing : node) :
  trimmed (extract_address listing) = true /\
  single_spaced false (extract_address listing) = true.
Proof.
  unfold extract_address. destruct (or_else _ _); [|split; reflexivity].
  split; [apply collapse_ws_trimmed, get_text_strip_trimmed
         | apply single_spaced_collapse].
Qed.

(** ** More about the rows *)

(** Reduces a statement about every row of a run to the same statement
    about the record [extract_listing] builds from a listing. *)
Ltac by_rows requests_get BeautifulSoup keyword location max_results :=
  let log := fresh "log" in
  let df := fresh "df" in
  let Hrun := fresh "Hrun" in
  let Hrows := fresh "Hrows" in
  let r := fresh "r" in
  let Hr := fresh "Hr" in
  let listing := fresh "listing" in
  let Hl := fresh "Hl" in
  destruct (scrape_justdial_rows requests_get BeautifulSoup
              keyword location max_results) as [log [df [Hrun Hrows]]];
  exists log, df; split; [exact Hrun|];
  intros r Hr; destruct (Hrows r Hr) as [listing Hl];
  apply extract_listing_some in Hl as [-> [? ?]]; simpl.

(** X1. In the address of every row the only whitespace is the single
    space: no tab or line break, and no two spaces in a row. *)
Theorem row_address_single_spaced
  (requests_get : string -> outcome response)
  (BeautifulSoup : string -> outcome node)
  (keyword location : string) (max_results : Z) :
  exists log df,
    scrape_justdial requests_get BeautifulSoup keyword location max_results
    = (log, Returned df) /\
    forall r, In r df -> single_spaced false (address r) = true.
Proof.
  by_rows requests_get BeautifulSoup keyword location max_results.
  apply extract_address_trimmed.
Qed.

(** X2. The name, the phone number and the address of every row neither
    start nor end with whitespace. *)
Theorem row_text_fields_trimmed
  (requests_get : string -> outcome response)
  (BeautifulSoup : string -> outcome node)
  (keyword location : string) (max_results : Z) :
  exists log df,
    scrape_justdial requests_get BeautifulSoup keyword location max_results
    = (log, Returned df) /\
    forall r, In r df ->
      trimmed (business_name r) = true /\
      trimmed (phone_number r) = true /\
      trimmed (address r) = true.
Proof.
  by_rows requests_get BeautifulSoup keyword location max_results.
  repeat split;
    [apply extract_name_trimmed | apply extract_phone_trimmed
    | apply extract_address_trimmed].
Qed.

(** X3. The category of every row is the keyword the scraper was called
    with, unchanged. *)
Theorem row_category_is_keyword
  (requests_get : string -> outcome response)
  (BeautifulSoup : string -> outcome node)
  (keyword location : string) (max_results : Z) :
  exists log df,
    scrape_justdial requests_get BeautifulSoup keyword location max_results
    = (log, Returned df) /\
    forall r, In r df -> business_category r = keyword.
Proof.
  by_rows requests_get BeautifulSoup keyword location max_results.
  reflexivity.
Qed.

(** X4. The e-mail of every row has between 9 and 24 characters, and none
    of them is a space, a hyphen or an upper-case letter. *)
Theorem row_email_shape
  (requests_get : string -> outcome response)
  (BeautifulSoup : string -> outcome node)
  (keyword location : string) (max_results : Z) :
  exists log df,
    scrape_justdial requests_get BeautifulSoup keyword location max_results
    = (log, Returned df) /\
    forall r, In r df ->
      (9 <= String.length (email_id r) <= 24)%nat /\
      str_all slug_char (email_id r) = true.
Proof.
  by_rows requests_get BeautifulSoup keyword location max_results.
  unfold make_email.
  match goal with H : extract_name _ <> NA |- _ =>
    apply String.eqb_neq in H; rewrite H end.
  simpl negb. cbv iota.
  set (email_name := Py.take 15 _).
  assert (String.length email_name <= 15)%nat as Hlen by apply take_length.
  assert (str_all slug_char email_name = true) as Hall
    by apply str_all_take, str_all_email_name.
  split.
  - rewrite !str_length_app. simpl. lia.
  - rewrite !str_all_app, Hall. reflexivity.
Qed.

(** ** The social profiles *)

(** What one node contributes on line 125, and what its target gives. *)
Lemma social_entry_of_node (d : node) :
  (if search_tag (by_href "a" Present) d
   then social_label (match href d with Some h => h | None => "" end)
   else [])
  = flat_map social_label
      (match d with
       | Tag name attrs _ =>
           if String.eqb name "a"
           then match get attrs "href" with
                | Some h => [h]
                | None => []
                end
           else []
       | Text _ => []
       end).
Proof.
  destruct d as [s|name attrs cs]; [reflexivity|].
  unfold search_tag, by_href, matches_attr, href. cbn [s_name s_class s_href].
  destruct (String.eqb name "a"); cbn [andb flat_map]; [|reflexivity].
  destruct (get attrs "href"); cbn [matches flat_map];
    [now rewrite app_nil_r | reflexivity].
Qed.

(** The links of line 125 give the entries their targets give. *)
Lemma social_links_from_targets (ds : list node) :
  flat_map (fun link =>
              social_label (match href link with Some h => h | None => "" end))
           (filter (search_tag (by_href "a" Present)) ds)
  = flat_map social_label
      (flat_map (fun d => match d with
                          | Tag name attrs _ =>
                              if String.eqb name "a"
                              then match get attrs "href" with
                                   | Some h => [h]
                                   | None => []
                                   end
                              else []
                          | Text _ => []
                          end) ds).
Proof.
  induction ds as [|d ds IH]; [reflexivity|].
  cbn [filter flat_map]. rewrite flat_map_app, <- IH, <- social_entry_of_node.
  destruct (search_tag (by_href "a" Present) d); reflexivity.
Qed.

Lemma social_label_initial (targets : list string) (e : string) :
  In e (flat_map social_label targets) ->
  exists t, e = String "F" t \/ e = String "I" t.
Proof.
  intros H. apply in_flat_map in H as [h [_ He]]. unfold social_label in He.
  destruct (Py.contains "facebook.com" h).
  - destruct He as [<-|[]]. eexists. left. reflexivity.
  - destruct (Py.contains "instagram.com" h); [|contradiction].
    destruct He as [<-|[]]. eexists. right. reflexivity.
Qed.

Lemma social_label_none (targets : list string) :
  flat_map social_label targets = [] <->
  forall h, In h targets ->
    Py.contains "facebook.com" h = false /\ Py.contains "instagram.com" h = false.
Proof.
  induction targets as [|h hs IH]; simpl.
  - split; [intros _ h [] | reflexivity].
  - split.
    + intros H. apply app_eq_nil in H as [Hh Hhs].
      intros h' [<-|Hin]; [|now apply IH].
      unfold social_label in Hh.
      destruct (Py.contains "facebook.com" h); [discriminate|].
      destruct (Py.contains "instagram.com" h); [discriminate | now split].
    + intros H. destruct (H h (or_introl eq_refl)) as [Hf Hi].
      unfold social_label at 1. rewrite Hf, Hi. simpl.
      apply IH. intros h' Hin. apply H. now right.
Qed.

(** X5. The social profiles of a listing are the first two of its links, in
    document order, whose target mentions facebook.com or instagram.com,
    each labelled (Facebook when both are mentioned) and joined by [" | "];
    the field is the sentinel exactly when no link mentions either.  The
    row of an accepted listing carries that value. *)
Theorem social_profiles_from_links (keyword : string) (listing : node) :
  let entries := flat_map social_label (link_targets listing) in
  extract_social listing
  = (if is_empty entries then NA else Py.join " | " (firstn 2 entries))
  /\ (extract_social listing = NA <->
      forall h, In h (link_targets listing) ->
        Py.contains "facebook.com" h = false /\
        Py.contains "instagram.com" h = false)
  /\ match extract_listing keyword listing with
     | Some r => social_profiles r = extract_social listing
     | None => True
     end.
Proof.
  intros entries.
  assert (social_links listing = entries) as Hlinks
    by (exact (social_links_from_targets (descendants listing))).
  assert (extract_social listing
          = if is_empty entries then NA else Py.join " | " (firstn 2 entries))
    as Hsocial by (unfold extract_social; now rewrite Hlinks).
  split; [exact Hsocial|]. split.
  - rewrite Hsocial, <- social_label_none. fold entries.
    destruct entries as [|e es] eqn:He; [split; reflexivity|].
    split; [|discriminate].
    assert (exists t, e = String "F" t \/ e = String "I" t) as [t Ht].
    { apply (social_label_initial (link_targets listing)).
      fold entries. rewrite He. now left. }
    simpl. destruct es as [|e' es']; destruct Ht as [-> | ->]; discriminate.
  - destruct (extract_listing keyword listing) as [r|] eqn:Hr; [|exact I].
    apply extract_listing_some in Hr as [-> _]. reflexivity.
Qed.

(** ** The request and the exported file *)

(** X6. The address requested holds no space and no upper-case letter, and
    it does not change when the keyword and the location are already in
    that form: inputs that differ only in letter case, or in spaces against
    hyphens, lead to the same request. *)
Theorem search_url_normalised (keyword location : string) :
  str_all url_char (search_url keyword location) = true /\
  search_url (Py.replace_char " " "-" (Py.lower keyword))
             (Py.replace_char " " "-" (Py.lower location))
  = search_url keyword location.
Proof.
  unfold search_url. split.
  - rewrite !str_all_app, !str_all_url_formatted. reflexivity.
  - now rewrite !url_formatted_idempotent.
Qed.

(** X7. When the timestamp holds no space and no upper-case letter, neither
    does the name of the exported file, whatever was typed as keyword and
    location. *)
Theorem export_filename_no_space (keyword location timestamp : string) :
  str_all url_char timestamp = true ->
  str_all url_char (export_filename keyword location timestamp) = true.
Proof.
  intros Hts. unfold export_filename.
  rewrite !str_all_app, Hts, str_all_filename_location.
  destruct (negb (keyword =? "")%string);
    [rewrite str_all_filename_keyword|]; reflexivity.
Qed.

Lemma export_filename_no_space_witness :
  export_filename "Coffee Shop" "New Delhi" "20260101_120000"
  = "real_leads_coffee_shop_new_delhi_20260101_120000.csv" /\
  str_all url_char
    (export_filename "Coffee Shop" "New Delhi" "20260101_120000") = true.
Proof.
  split; [reflexivity|].
  apply (export_filename_no_space "Coffee Shop" "New Delhi" "20260101_120000").
  reflexivity.
Defined.

(** ** More about the runs *)

(** With room for every listing, the loop reports each row once, numbered
    from the counter on. *)
Lemma for_listings_progress (keyword : string) (max_results : Z)
  (listings : list node) :
  forall (count : Z) (businesses : list LeadRecord),
  (count + Z.of_nat (List.length listings) <= max_results)%Z ->
  for_listings keyword max_results listings count businesses
  = (progress count (accepted keyword listings),
     Returned (businesses ++ accepted keyword listings)).
Proof.
  induction listings as [|l ls IH]; intros count businesses Hroom.
  - simpl. now rewrite app_nil_r.
  - rewrite accepted_cons. simpl.
    destruct (extract_listing keyword l) as [b|].
    + unfold bind, emit.
      destruct (count + 1 >=? max_results)%Z eqn:Hbreak.
      * apply Z.geb_le in Hbreak. simpl in Hroom.
        destruct ls as [|l' ls']; [reflexivity | simpl in Hroom; lia].
      * rewrite (IH (count + 1)%Z (businesses ++ [b])) by (simpl in Hroom; lia).
        simpl. now rewrite <- app_assoc.
    + apply IH. simpl in Hroom. lia.
Qed.

(** Once the counter is one short of the bound, the loop stops at the first
    row it appends. *)
Lemma for_listings_first_only (keyword : string) (max_results : Z)
  (listings : list node) :
  forall (count : Z) (businesses : list LeadRecord),
  (max_results <= count + 1)%Z ->
  snd (for_listings keyword max_results listings count businesses)
  = Returned (businesses ++ firstn 1 (accepted keyword listings)).
Proof.
  induction listings as [|l ls IH]; intros count businesses Hfull.
  - simpl. now rewrite app_nil_r.
  - rewrite accepted_cons. simpl.
    destruct (extract_listing keyword l) as [b|]; [|now apply IH].
    unfold bind, emit.
    replace (count + 1 >=? max_results)%Z with true
      by (symmetry; apply Z.geb_le; lia).
    reflexivity.
Qed.

Lemma process_listings_run (keyword : string) (max_results : Z)
  (listings : list node) :
  (0 <= max_results)%Z ->
  let rows := accepted keyword (firstn (Z.to_nat max_results) listings) in
  process_listings keyword max_results listings
  = (Info_found (List.length listings)
       :: progress 0 rows
       ++ (if is_empty rows then [Error_no_valid_data] else []),
     Returned rows).
Proof.
  intros Hmax rows. unfold process_listings, bind, emit.
  pose proof (slice_to_length listings max_results Hmax) as Hlen.
  rewrite for_listings_progress by lia.
  rewrite (slice_to_nonneg listings max_results Hmax). fold rows.
  destruct rows; simpl; [reflexivity | now rewrite app_nil_r].
Qed.

Lemma process_listings_first_only (keyword : string) (max_results : Z)
  (listings : list node) :
  (max_results <= 1)%Z ->
  snd (process_listings keyword max_results listings)
  = Returned (firstn 1 (accepted keyword (Py.slice_to listings max_results))).
Proof.
  intros Hmax. unfold process_listings, bind, emit.
  pose proof (for_listings_first_only keyword max_results
                (Py.slice_to listings max_results) 0%Z []) as Hfirst.
  destruct (for_listings keyword max_results (Py.slice_to listings max_results) 0 [])
    as [log r].
  simpl in Hfirst. rewrite Hfirst by lia. simpl.
  destruct (accepted keyword (Py.slice_to listings max_results)); reflexivity.
Qed.

(** A tag the store-details selector matches is matched by the loose
    pattern as well. *)
Lemma store_details_search_loose (n : node) :
  search_tag (by_class "div" (Exact "store-details")) n = true ->
  search_tag (by_class "div" (Pattern loose_class)) n = true.
Proof.
  destruct n as [s|name attrs cs]; [trivial|].
  unfold search_tag, by_class, matches_class. cbn [s_name s_class s_href].
  destruct (String.eqb name "div"); [|trivial]. cbn [andb].
  destruct (get attrs "class") as [v|]; [|trivial].
  rewrite !andb_true_r. intros H. apply orb_prop in H as [H|H].
  - apply orb_true_iff. left.
    apply existsb_exists in H as [t [Ht Heq]].
    apply existsb_exists. exists t. split; [exact Ht|].
    cbn [matches] in *. apply String.eqb_eq in Heq. subst t. reflexivity.
  - apply orb_true_iff. right.
    cbn [matches] in *. apply String.eqb_eq in H. rewrite H. reflexivity.
Qed.

Lemma store_details_empty_of_loose (soup : node) :
  loose_listings soup = [] -> store_details_listings soup = [].
Proof.
  unfold loose_listings, store_details_listings, find_all. intros Hloose.
  destruct (filter (search_tag (by_class "div" (Exact "store-details")))
              (descendants soup)) as [|x xs] eqn:Hstore; [reflexivity|].
  assert (In x (filter (search_tag (by_class "div" (Pattern loose_class)))
                  (descendants soup))) as Hin.
  { assert (In x (x :: xs)) as Hx by now left.
    rewrite <- Hstore in Hx. apply filter_In in Hx as [Hd Hs].
    apply filter_In. split; [exact Hd | now apply store_details_search_loose]. }
  rewrite Hloose in Hin. contradiction.
Qed.

Section RunFacts.

Variable requests_get : string -> outcome response.
Variable BeautifulSoup : string -> outcome node.

(** A run on a fetched and parsed page: the three opening events, what the
    cascade logs, then [process_listings] on the listings it returns. *)
Lemma scrape_justdial_page_run (keyword location : string) (max_results : Z)
  (resp : response) (soup : node) :
  requests_get (search_url keyword location) = Returned resp ->
  status_code resp = 200%Z ->
  BeautifulSoup (content resp) = Returned soup ->
  scrape_justdial requests_get BeautifulSoup keyword location max_results
  = ([Info_searching keyword location; Get (search_url keyword location);
      Parse (content resp)]
     ++ fst (select_listings soup)
     ++ fst (process_listings keyword max_results (chosen_listings soup)),
     snd (process_listings keyword max_results (chosen_listings soup))).
Proof.
  intros Hget Hstatus Hparse.
  unfold scrape_justdial, try_except, bind, call, emit.
  rewrite Hget, Hstatus, Hparse. simpl.
  pose proof (select_listings_chosen soup) as Hsel.
  destruct (select_listings soup) as [slog sres]. simpl in Hsel. subst sres.
  destruct (process_listings_returns keyword max_results (chosen_listings soup))
    as [plog [n Hp]].
  rewrite Hp. reflexivity.
Qed.

(** Either the frame is empty or it is what [process_listings] returns on
    the listings of some page. *)
Lemma scrape_justdial_cases (keyword location : string) (max_results : Z) :
  exists log df,
    scrape_justdial requests_get BeautifulSoup keyword location max_results
    = (log, Returned df) /\
    (df = [] \/
     exists soup,
       snd (process_listings keyword max_results (chosen_listings soup))
       = Returned df).
Proof.
  destruct (requests_get (search_url keyword location)) as [resp|e] eqn:Hget.
  - destruct (status_code resp =? 200)%Z eqn:Hstatus.
    + apply Z.eqb_eq in Hstatus.
      destruct (BeautifulSoup (content resp)) as [soup|e] eqn:Hparse.
      * rewrite (scrape_justdial_page_run keyword location max_results resp soup
                   Hget Hstatus Hparse).
        destruct (process_listings_returns keyword max_results (chosen_listings soup))
          as [plog [n Hp]].
        rewrite Hp. eexists _, _. split; [reflexivity|]. right.
        exists soup. now rewrite Hp.
      * unfold scrape_justdial, try_except, bind, call, emit.
        rewrite Hget, Hstatus, Hparse. simpl.
        eexists _, _. split; [reflexivity | now left].
    + unfold scrape_justdial, try_except, bind, call, emit.
      rewrite Hget, Hstatus. simpl. eexists _, _. split; [reflexivity | now left].
  - unfold scrape_justdial, try_except, bind, call, emit.
    rewrite Hget. simpl. eexists _, _. split; [reflexivity | now left].
Qed.

End RunFacts.

(** X8. On a fetched and parsed page, with a result count that is not
    negative, the scraper reports the number of all the listings found (not
    only those it keeps), then one progress line per row, numbered from 1 in
    the order of the rows and carrying the row's name, and the "no valid
    data" error exactly when there is no row. *)
Theorem run_log_on_page
  (requests_get : string -> outcome response)
  (BeautifulSoup : string -> outcome node)
  (keyword location : string) (max_results : Z)
  (resp : response) (soup : node) :
  requests_get (search_url keyword location) = Returned resp ->
  status_code resp = 200%Z ->
  BeautifulSoup (content resp) = Returned soup ->
  (0 <= max_results)%Z ->
  let rows := accepted keyword
                (firstn (Z.to_nat max_results) (chosen_listings soup)) in
  scrape_justdial requests_get BeautifulSoup keyword location max_results
  = ([Info_searching keyword location; Get (search_url keyword location);
      Parse (content resp)]
     ++ fst (select_listings soup)
     ++ Info_found (List.length (chosen_listings soup))
     :: progress 0 rows
     ++ (if is_empty rows then [Error_no_valid_data] else []),
     Returned rows).
Proof.
  intros Hget Hstatus Hparse Hmax rows.
  rewrite (scrape_justdial_page_run requests_get BeautifulSoup keyword location
             max_results resp soup Hget Hstatus Hparse).
  now rewrite (process_listings_run keyword max_results (chosen_listings soup) Hmax).
Qed.

Lemma run_log_on_page_witness :
  fst (scrape_justdial (Fixture.serve 200) (Fixture.parse_as Fixture.page_three)
         "tea" "kochi" 2)
  = [Info_searching "tea" "kochi"; Get "https://www.justdial.com/kochi/tea";
     Parse "<html>"; Info_found 3;
     Text_extracted 1 "Cafe Blue-Moon Express Kochi";
     Text_extracted 2 "Tea House"].
Proof.
  rewrite (run_log_on_page (Fixture.serve 200) (Fixture.parse_as Fixture.page_three)
             "tea" "kochi" 2 (mkResponse 200 "<html>") Fixture.page_three
             eq_refl eq_refl eq_refl ltac:(lia)).
  reflexivity.
Defined.

(** X9. When the page has no more listings than the result count, every
    acceptable listing of the page gives a row, in document order: the
    frame has as many rows as the page has acceptable listings. *)
Theorem budget_not_binding
  (requests_get : string -> outcome response)
  (BeautifulSoup : string -> outcome node)
  (keyword location : string) (max_results : Z)
  (resp : response) (soup : node) :
  requests_get (search_url keyword location) = Returned resp ->
  status_code resp = 200%Z ->
  BeautifulSoup (content resp) = Returned soup ->
  (Z.of_nat (List.length (chosen_listings soup)) <= max_results)%Z ->
  snd (scrape_justdial requests_get BeautifulSoup keyword location max_results)
  = Returned (accepted keyword (chosen_listings soup)) /\
  List.length (accepted keyword (chosen_listings soup))
  = List.length (filter acceptable (chosen_listings soup)).
Proof.
  intros Hget Hstatus Hparse Hroom. split; [|apply accepted_count].
  rewrite (scrape_justdial_on_page requests_get BeautifulSoup keyword location
             max_results resp soup Hget Hstatus Hparse).
  rewrite process_listings_all by lia.
  rewrite firstn_all2 by lia. reflexivity.
Qed.

Lemma budget_not_binding_witness :
  List.length (filter acceptable (chosen_listings Fixture.page_three)) = 3%nat /\
  snd (scrape_justdial (Fixture.serve 200) (Fixture.parse_as Fixture.page_three)
         "tea" "kochi" 10)
  = Returned (accepted "tea" (chosen_listings Fixture.page_three)) /\
  List.length (accepted "tea" (chosen_listings Fixture.page_three))
  = List.length (filter acceptable (chosen_listings Fixture.page_three)).
Proof.
  split; [reflexivity|].
  apply (budget_not_binding (Fixture.serve 200) (Fixture.parse_as Fixture.page_three)
           "tea" "kochi" 10 (mkResponse 200 "<html>") Fixture.page_three);
    [reflexivity | reflexivity | reflexivity | vm_compute; discriminate].
Defined.

(** X10. When the primary selector finds nothing and the store-details
    selector finds something, one warning is shown and the run goes on with
    the store-details matches; the loose pattern is not consulted. *)
Theorem fallback_store_details
  (requests_get : string -> outcome response)
  (BeautifulSoup : string -> outcome node)
  (keyword location : string) (max_results : Z)
  (resp : response) (soup : node) :
  requests_get (search_url keyword location) = Returned resp ->
  status_code resp = 200%Z ->
  BeautifulSoup (content resp) = Returned soup ->
  primary_listings soup = [] ->
  store_details_listings soup <> [] ->
  scrape_justdial requests_get BeautifulSoup keyword location max_results
  = ([Info_searching keyword location; Get (search_url keyword location);
      Parse (content resp); Warning_primary_empty]
     ++ fst (process_listings keyword max_results (store_details_listings soup)),
     snd (process_listings keyword max_results (store_details_listings soup))).
Proof.
  intros Hget Hstatus Hparse Hprimary Hstore.
  rewrite (scrape_justdial_page_run requests_get BeautifulSoup keyword location
             max_results resp soup Hget Hstatus Hparse).
  unfold select_listings, chosen_listings. rewrite Hprimary.
  destruct (store_details_listings soup); [contradiction | reflexivity].
Qed.

Lemma fallback_store_details_witness :
  scrape_justdial (Fixture.serve 200)
    (Fixture.parse_as Scenario.page_store_details) "tea" "kochi" 3
  = ([Info_searching "tea" "kochi"; Get (search_url "tea" "kochi");
      Parse "<html>"; Warning_primary_empty]
     ++ fst (process_listings "tea" 3
               (store_details_listings Scenario.page_store_details)),
     snd (process_listings "tea" 3
            (store_details_listings Scenario.page_store_details))).
Proof.
  apply (fallback_store_details (Fixture.serve 200)
           (Fixture.parse_as Scenario.page_store_details) "tea" "kochi" 3
           (mkResponse 200 "<html>") Scenario.page_store_details);
    [reflexivity | reflexivity | reflexivity | reflexivity | discriminate].
Defined.

(** X11. When neither the primary nor the store-details selector finds
    anything, both warnings are shown and the run goes on with the [div]
    tags whose class mentions listing, store or business. *)
Theorem fallback_loose_pattern
  (requests_get : string -> outcome response)
  (BeautifulSoup : string -> outcome node)
  (keyword location : string) (max_results : Z)
  (resp : response) (soup : node) :
  requests_get (search_url keyword location) = Returned resp ->
  status_code resp = 200%Z ->
  BeautifulSoup (content resp) = Returned soup ->
  primary_listings soup = [] ->
  store_details_listings soup = [] ->
  scrape_justdial requests_get BeautifulSoup keyword location max_results
  = ([Info_searching keyword location; Get (search_url keyword location);
      Parse (content resp); Warning_primary_empty; Warning_another_method]
     ++ fst (process_listings keyword max_results (loose_listings soup)),
     snd (process_listings keyword max_results (loose_listings soup))).
Proof.
  intros Hget Hstatus Hparse Hprimary Hstore.
  rewrite (scrape_justdial_page_run requests_get BeautifulSoup keyword location
             max_results resp soup Hget Hstatus Hparse).
  unfold select_listings, chosen_listings. rewrite Hprimary, Hstore. reflexivity.
Qed.

Lemma fallback_loose_pattern_witness :
  List.length (loose_listings Scenario.page_loose) = 1%nat /\
  scrape_justdial (Fixture.serve 200)
    (Fixture.parse_as Scenario.page_loose) "tea" "kochi" 3
  = ([Info_searching "tea" "kochi"; Get (search_url "tea" "kochi");
      Parse "<html>"; Warning_primary_empty; Warning_another_method]
     ++ fst (process_listings "tea" 3 (loose_listings Scenario.page_loose)),
     snd (process_listings "tea" 3 (loose_listings Scenario.page_loose))).
Proof.
  split; [reflexivity|].
  apply (fallback_loose_pattern (Fixture.serve 200)
           (Fixture.parse_as Scenario.page_loose) "tea" "kochi" 3
           (mkResponse 200 "<html>") Scenario.page_loose); reflexivity.
Defined.

(** X12. Every tag the store-details selector matches is matched by the
    loose pattern too, in the same order: the third strategy looks at a
    superset of what the second looked at. *)
Theorem store_details_within_loose (soup : node) :
  incl (store_details_listings soup) (loose_listings soup) /\
  store_details_listings soup
  = filter (search_tag (by_class "div" (Exact "store-details")))
           (loose_listings soup).
Proof.
  unfold store_details_listings, loose_listings, find_all. split.
  - intros x Hx. apply filter_In in Hx as [Hd Hs].
    apply filter_In. split; [exact Hd | now apply store_details_search_loose].
  - induction (descendants soup) as [|d ds IH]; [reflexivity|]. simpl.
    destruct (search_tag (by_class "div" (Exact "store-details")) d) eqn:Hs.
    + rewrite (store_details_search_loose d Hs). simpl. now rewrite Hs, IH.
    + destruct (search_tag (by_class "div" (Pattern loose_class)) d);
        simpl; [rewrite Hs|]; exact IH.
Qed.

(** X13. On a page where neither the primary selector nor the loose pattern
    finds anything, the scraper shows both warnings, reports 0 listings and
    the "no valid data" error, and returns the empty frame. *)
Theorem selector_miss_run
  (requests_get : string -> outcome response)
  (BeautifulSoup : string -> outcome node)
  (keyword location : string) (max_results : Z)
  (resp : response) (soup : node) :
  requests_get (search_url keyword location) = Returned resp ->
  status_code resp = 200%Z ->
  BeautifulSoup (content resp) = Returned soup ->
  primary_listings soup = [] ->
  loose_listings soup = [] ->
  scrape_justdial requests_get BeautifulSoup keyword location max_results
  = ([Info_searching keyword location; Get (search_url keyword location);
      Parse (content resp); Warning_primary_empty; Warning_another_method;
      Info_found 0; Error_no_valid_data],
     Returned []).
Proof.
  intros Hget Hstatus Hparse Hprimary Hloose.
  pose proof (store_details_empty_of_loose soup Hloose) as Hstore.
  rewrite (scrape_justdial_page_run requests_get BeautifulSoup keyword location
             max_results resp soup Hget Hstatus Hparse).
  unfold select_listings, chosen_listings. rewrite Hprimary, Hstore. simpl.
  rewrite Hloose. unfold process_listings, Py.slice_to.
  destruct (0 <=? max_results)%Z; simpl; rewrite firstn_nil; reflexivity.
Qed.

Lemma selector_miss_run_witness :
  scrape_justdial (Fixture.serve 200) (Fixture.parse_as Scenario.page_blank)
    "tea" "kochi" 10
  = ([Info_searching "tea" "kochi"; Get (search_url "tea" "kochi");
      Parse "<html>"; Warning_primary_empty; Warning_another_method;
      Info_found 0; Error_no_valid_data],
     Returned []).
Proof.
  apply (selector_miss_run (Fixture.serve 200) (Fixture.parse_as Scenario.page_blank)
           "tea" "kochi" 10 (mkResponse 200 "<html>") Scenario.page_blank);
    reflexivity.
Defined.

(** X14. With a result count below 1 the frame has at most one row: the
    test of line 151 stops the loop at the first row appended. *)
Theorem max_results_below_one
  (requests_get : string -> outcome response)
  (BeautifulSoup : string -> outcome node)
  (keyword location : string) (max_results : Z) :
  (max_results < 1)%Z ->
  exists log df,
    scrape_justdial requests_get BeautifulSoup keyword location max_results
    = (log, Returned df) /\
    (List.length df <= 1)%nat.
Proof.
  intros Hmax.
  destruct (scrape_justdial_cases requests_get BeautifulSoup
              keyword location max_results) as [log [df [Hrun Hdf]]].
  exists log, df. split; [exact Hrun|].
  destruct Hdf as [-> | [soup Hsoup]]; [simpl; lia|].
  rewrite process_listings_first_only in Hsoup by lia.
  injection Hsoup as <-.
  destruct (accepted keyword (Py.slice_to (chosen_listings soup) max_results));
    simpl; lia.
Qed.

Lemma max_results_below_one_witness :
  (-1 < 1)%Z /\
  exists log df,
    scrape_justdial (Fixture.serve 200) (Fixture.parse_as Fixture.page_three)
      "tea" "kochi" (-1)
    = (log, Returned df) /\
    (List.length df <= 1)%nat.
Proof.
  split; [lia|].
  apply (max_results_below_one (Fixture.serve 200)
           (Fixture.parse_as Fixture.page_three) "tea" "kochi" (-1)).
  lia.
Defined.

(** ** The button, the session and the metrics *)

Lemma filter_all {A : Type} (f : A -> bool) (l : list A) :
  (forall x, In x l -> f x = true) -> filter f l = l.
Proof.
  induction l as [|x l IH]; intros H; [reflexivity|]. simpl.
  rewrite (H x (or_introl eq_refl)). f_equal. apply IH.
  intros y Hy. apply H. now right.
Qed.

Lemma extract_listing_email (keyword : string) (listing : node) (r : LeadRecord) :
  extract_listing keyword listing = Some r -> email_id r <> NA.
Proof.
  intros H. apply extract_listing_some in H as [-> [Hna _]]. simpl.
  unfold make_email. apply String.eqb_neq in Hna. rewrite Hna. simpl. discriminate.
Qed.

(** What a run of the scraper guarantees to its caller. *)
Lemma scrape_justdial_facts
  (requests_get : string -> outcome response)
  (BeautifulSoup : string -> outcome node)
  (keyword location : string) (max_results : Z) :
  exists log df,
    scrape_justdial requests_get BeautifulSoup keyword location max_results
    = (log, Returned df) /\
    (forall r, In r df -> email_id r <> NA) /\
    ((0 <= max_results)%Z -> (Z.of_nat (List.length df) <= max_results)%Z).
Proof.
  destruct (scrape_justdial_returns requests_get BeautifulSoup
              keyword location max_results) as [log [listings [n H]]].
  eexists _, _. split; [exact H|]. split.
  - intros r Hr.
    assert (In r (accepted keyword (Py.slice_to listings max_results))) as Hin.
    { rewrite <- (firstn_skipn n). apply in_or_app. now left. }
    apply accepted_from_listing in Hin as [listing [_ Hl]].
    exact (extract_listing_email keyword listing r Hl).
  - intros Hmax.
    pose proof (length_firstn n (accepted keyword (Py.slice_to listings max_results))).
    pose proof (accepted_length keyword (Py.slice_to listings max_results)).
    pose proof (slice_to_length listings max_results Hmax).
    lia.
Qed.

(** One press: it returns, and the stored frame is the old one or a new
    frame with at least one row, every row with its e-mail, and no more rows
    than the slider allows. *)
Lemma start_extraction_step
  (requests_get : string -> outcome response)
  (BeautifulSoup : string -> outcome node)
  (keyword location : string) (num_results : Z)
  (extracted_data : option DataFrame) :
  exists msgs extracted_data',
    start_extraction requests_get BeautifulSoup keyword location num_results
      extracted_data
    = (msgs, Returned extracted_data') /\
    (extracted_data' = extracted_data \/
     exists df,
       extracted_data' = Some df /\ df <> [] /\
       (forall r, In r df -> email_id r <> NA) /\
       ((0 <= num_results)%Z -> (Z.of_nat (List.length df) <= num_results)%Z)).
Proof.
  unfold start_extraction.
  destruct ((keyword =? "")%string || (location =? "")%string).
  - eexists _, _. split; [reflexivity | now left].
  - destruct (scrape_justdial_facts requests_get BeautifulSoup
                keyword location num_results) as [log [df [Hrun [Hemail Hlen]]]].
    rewrite Hrun. destruct df as [|r df]; simpl.
    + eexists _, _. split; [reflexivity | now left].
    + eexists _, _. split; [reflexivity|]. right.
      exists (r :: df). repeat split; [discriminate | exact Hemail | exact Hlen].
Qed.

(** A property of the stored frame that every press keeps holds after any
    sequence of presses. *)
Lemma session_keeps (I : option DataFrame -> Prop) (clicks : list click) :
  (forall c old, In c clicks -> I old ->
     exists msgs new,
       start_extraction (network c) (parser c) (typed_keyword c)
         (typed_location c) (slider c) old = (msgs, Returned new) /\ I new) ->
  forall extracted_data, I extracted_data ->
  exists extracted_data',
    session clicks extracted_data = Returned extracted_data' /\ I extracted_data'.
Proof.
  induction clicks as [|c rest IH]; intros Hstep extracted_data Hinit.
  - exists extracted_data. now split.
  - destruct (Hstep c extracted_data (or_introl eq_refl) Hinit)
      as [msgs [new [Hrun Hnew]]].
    simpl. rewrite Hrun. simpl. apply IH; [|exact Hnew].
    intros c' old Hin. apply Hstep. now right.
Qed.

(** X15. With a keyword and a location typed in, a press of the button
    never raises; it replaces the stored frame exactly when the scraper
    returned at least one row, and then announces the number of rows;
    otherwise (failed fetch, no listing, no acceptable listing) the frame
    stored before stays in place. *)
Theorem start_extraction_keeps_or_replaces
  (requests_get : string -> outcome response)
  (BeautifulSoup : string -> outcome node)
  (keyword location : string) (num_results : Z)
  (extracted_data : option DataFrame) :
  keyword <> "" -> location <> "" ->
  exists log df,
    scrape_justdial requests_get BeautifulSoup keyword location num_results
    = (log, Returned df) /\
    start_extraction requests_get BeautifulSoup keyword location num_results
      extracted_data
    = (map From_scraper log
         ++ (if is_empty df then [Error_no_data_found; Info_tip]
             else [Success_extracted (List.length df)]),
       Returned (if is_empty df then extracted_data else Some df)).
Proof.
  intros Hk Hl. apply String.eqb_neq in Hk, Hl.
  destruct (scrape_justdial_returns requests_get BeautifulSoup
              keyword location num_results) as [log [listings [n Hrun]]].
  eexists _, _. split; [exact Hrun|].
  unfold start_extraction. rewrite Hk, Hl, Hrun. simpl.
  destruct (firstn n (accepted keyword (Py.slice_to listings num_results)));
    reflexivity.
Qed.

(** A fetch that fails after a successful extraction: the three rows stay. *)
Lemma start_extraction_keeps_or_replaces_witness :
  exists log df,
    scrape_justdial Fixture.unreachable (Fixture.parse_as Fixture.page_three)
      "tea" "kochi" 10
    = (log, Returned df) /\
    start_extraction Fixture.unreachable (Fixture.parse_as Fixture.page_three)
      "tea" "kochi" 10 (Some (accepted "tea" (primary_listings Fixture.page_three)))
    = (map From_scraper log
         ++ (if is_empty df then [Error_no_data_found; Info_tip]
             else [Success_extracted (List.length df)]),
       Returned (if is_empty df
                 then Some (accepted "tea" (primary_listings Fixture.page_three))
                 else Some df)).
Proof.
  apply (start_extraction_keeps_or_replaces Fixture.unreachable
           (Fixture.parse_as Fixture.page_three) "tea" "kochi" 10);
    discriminate.
Defined.

(** X16. With the slider in its range, 3 to 20, a press leaves the stored
    frame as it was or stores a frame of at least one row and at most as
    many rows as the slider shows. *)
Theorem start_extraction_frame_size
  (requests_get : string -> outcome response)
  (BeautifulSoup : string -> outcome node)
  (keyword location : string) (num_results : Z)
  (extracted_data : option DataFrame) :
  (3 <= num_results <= 20)%Z ->
  exists msgs extracted_data',
    start_extraction requests_get BeautifulSoup keyword location num_results
      extracted_data
    = (msgs, Returned extracted_data') /\
    (extracted_data' = extracted_data \/
     exists df,
       extracted_data' = Some df /\
       (1 <= Z.of_nat (List.length df) <= num_results)%Z).
Proof.
  intros Hslider.
  destruct (start_extraction_step requests_get BeautifulSoup keyword location
              num_results extracted_data) as [msgs [new [Hrun Hnew]]].
  exists msgs, new. split; [exact Hrun|].
  destruct Hnew as [Hold | [df [Hdf [Hne [_ Hlen]]]]]; [now left | right].
  exists df. split; [exact Hdf|].
  destruct df; [congruence|]. simpl List.length in *. lia.
Qed.

Lemma start_extraction_frame_size_witness :
  (3 <= 3 <= 20)%Z /\
  exists msgs extracted_data',
    start_extraction (Fixture.serve 200) (Fixture.parse_as Fixture.page_skip_first)
      "tea" "kochi" 3 None
    = (msgs, Returned extracted_data') /\
    (extracted_data' = None \/
     exists df,
       extracted_data' = Some df /\
       (1 <= Z.of_nat (List.length df) <= 3)%Z).
Proof.
  split; [lia|].
  apply (start_extraction_frame_size (Fixture.serve 200)
           (Fixture.parse_as Fixture.page_skip_first) "tea" "kochi" 3 None).
  lia.
Defined.

(** X17. After any sequence of presses in a session that starts with no
    data, a stored frame has at least one row and every row has an e-mail
    other than the sentinel, so the "With Email" metric equals "Total
    Leads"; and no press raises. *)
Theorem session_with_email_is_total (clicks : list click) :
  exists extracted_data,
    session clicks None = Returned extracted_data /\
    match extracted_data with
    | None => True
    | Some df => df <> [] /\ with_email df = total_leads df
    end.
Proof.
  apply (session_keeps
           (fun st => match st with
                      | None => True
                      | Some df => df <> [] /\ with_email df = total_leads df
                      end)); [|exact I].
  intros c old _ Hold.
  destruct (start_extraction_step (network c) (parser c) (typed_keyword c)
              (typed_location c) (slider c) old) as [msgs [new [Hrun Hnew]]].
  exists msgs, new. split; [exact Hrun|].
  destruct Hnew as [-> | [df [-> [Hne [Hemail _]]]]]; [exact Hold|].
  split; [exact Hne|]. unfold with_email, total_leads.
  rewrite filter_all; [reflexivity|].
  intros r Hr. apply negb_true_iff, String.eqb_neq. now apply Hemail.
Qed.

(** X18. When every press is made with the slider in its range, 3 to 20,
    the stored frame never has more than 20 rows. *)
Theorem session_at_most_twenty (clicks : list click) :
  Forall (fun c => (3 <= slider c <= 20)%Z) clicks ->
  exists extracted_data,
    session clicks None = Returned extracted_data /\
    match extracted_data with
    | None => True
    | Some df => (1 <= total_leads df <= 20)%nat
    end.
Proof.
  intros Hsliders.
  apply (session_keeps
           (fun st => match st with
                      | None => True
                      | Some df => (1 <= total_leads df <= 20)%nat
                      end)); [|exact I].
  intros c old Hc Hold.
  pose proof (proj1 (Forall_forall _ _) Hsliders c Hc) as Hslider.
  cbv beta in Hslider.
  destruct (start_extraction_step (network c) (parser c) (typed_keyword c)
              (typed_location c) (slider c) old) as [msgs [new [Hrun Hnew]]].
  exists msgs, new. split; [exact Hrun|].
  destruct Hnew as [-> | [df [-> [Hne [_ Hlen]]]]]; [exact Hold|].
  unfold total_leads. destruct df; [congruence|]. simpl List.length in *. lia.
Qed.

Lemma session_at_most_twenty_witness :
  session Scenario.three_clicks None
  = Returned (Some (accepted "tea" (primary_listings Fixture.page_three))) /\
  exists extracted_data,
    session Scenario.three_clicks None = Returned extracted_data /\
    match extracted_data with
    | None => True
    | Some df => (1 <= total_leads df <= 20)%nat
    end.
Proof.
  split; [vm_compute; reflexivity|].
  apply (session_at_most_twenty Scenario.three_clicks).
  repeat constructor; simpl; lia.
Defined.
